(** * EduMentor AI: persistence and content-generation core

    A shallow embedding of [haidon.py]: the [DatabaseManager] class, the
    [ContentGenerator] class and the two database handlers of [login_page],
    together with the part of the [sqlite3] module they rely on.

    Conventions.
    - A Python [str] is a [string] holding its UTF-8 bytes; a value that may
      be [None] (SQL NULL) is an [option].
    - The contents of the database file [self.db_name] are a [database];
      every method opens its own connection on it, so a method is a function
      from the file's contents to a result and the file's new contents.
    - [CURRENT_TIMESTAMP] is an input [now] of the statement that reads it,
      counted in seconds (SQLite keeps whole seconds).
    - A row id is an unbounded [Z]; the 64-bit ceiling of SQLite's rowid is
      not represented. An integer passed as a parameter of a statement must
      fit a signed 64-bit SQLite INTEGER, or the call raises [OverflowError].
    - A method that raises between [connect] and [close] leaves its
      connection open. The methods on a [database] are run on a file whose
      write lock no such connection holds; the methods on a [shared] file
      (module [SharedFile]) carry the lock along. *)

From Stdlib Require Import String Ascii ZArith List Bool Lia.
From Stdlib Require Import Sorted Permutation DecimalString.
From Stdlib Require DecimalPos DecimalZ Finite.
Import ListNotations.
Open Scope string_scope.
Open Scope Z_scope.

(** ** Python values, exceptions and results *)

Module Py.

Inductive exception : Type :=
| IntegrityError     (* sqlite3.IntegrityError *)
| OperationalError   (* sqlite3.OperationalError *)
| RecursionError     (* maximum recursion depth exceeded *)
| OverflowError.     (* Python int too large to convert to SQLite INTEGER *)

Definition exception_eqb (a b : exception) : bool :=
  match a, b with
  | IntegrityError, IntegrityError => true
  | OperationalError, OperationalError => true
  | RecursionError, RecursionError => true
  | OverflowError, OverflowError => true
  | _, _ => false
  end.

Inductive result (A : Type) : Type :=
| Ok (a : A)
| Raise (e : exception).
Arguments Ok {A} a.
Arguments Raise {A} e.

(** [str] or [None]; [int] or [None]. *)
Definition text : Type := option string.
Definition integer : Type := option Z.

(** Truth value of an optional string: [None] and [""] are false. *)
Definition truthy (s : text) : bool :=
  match s with
  | None => false
  | Some EmptyString => false
  | Some (String _ _) => true
  end.

(** [str(i)] for an integer, as an f-string prints it. *)
Definition str_of_int (i : Z) : string :=
  NilZero.string_of_int (Z.to_int i).

(** [range(n)]: [0, 1, ..., n-1], empty when [n <= 0]. *)
Definition range (n : Z) : list Z :=
  map Z.of_nat (seq 0 (Z.to_nat n)).

End Py.
Import Py.

(** ** class ContentGenerator *)

Module ContentGenerator.

Record t : Type := {
  api_key : text;
  base_url : string
}.

(** [__init__(self, api_key = None)] *)
Definition init (key : text) : t :=
  {| api_key := key; base_url := "https://api.deepseek.com/v1" |}.

(** The dictionary returned by [generate_lesson_outline]. *)
Record LessonDocument : Type := {
  title : string;
  outline : list string;
  content : string;
  key_points : list string;
  estimated_time : string
}.

(** The fallback template of the [if not self.api_key] branch. *)
Definition template (topic subject : string) : LessonDocument :=
  {| title := "Bài học về " ++ topic;
     outline := [ "1. Giới thiệu và mục tiêu học tập";
                  "2. Kiến thức cơ bản";
                  "3. Ví dụ minh họa";
                  "4. Bài tập thực hành";
                  "5. Tổng kết và đánh giá" ];
     content := "Nội dung chi tiết về " ++ topic ++ " trong môn " ++ subject ++ "...";
     key_points := [ "Khái niệm cơ bản về " ++ topic;
                     "Ứng dụng thực tế của " ++ topic;
                     "Các bài tập liên quan đến " ++ topic ];
     estimated_time := "45 phút" |}.

(** The prompt built (and never used) after the [TODO]. *)
Definition prompt (topic subject grade_level : string) : string :=
  "
        Tạo dàn ý bài giảng chi tiết cho chủ đề: " ++ topic ++ "
        Môn học: " ++ subject ++ "
        Cấp độ: " ++ grade_level ++ "
        
        Yêu cầu:
        1. Dàn ý rõ ràng, logic
        2. Nội dung phù hợp với cấp độ học sinh
        3. Bao gồm hoạt động thực hành
        4. Thời gian dự kiến cho mỗi phần
        ".

(** [generate_lesson_outline]. The method calls itself with the same
    receiver and arguments when [self.api_key] is set; [frames] is the
    number of stack frames the interpreter still allows, and running out of
    them raises [RecursionError]. *)
Fixpoint generate_lesson_outline (frames : nat) (self : t)
    (topic subject grade_level : string) : result LessonDocument :=
  match frames with
  | O => Raise RecursionError
  | S frames' =>
      if negb (truthy (api_key self)) then
        Ok (template topic subject)
      else
        let _ := prompt topic subject grade_level in
        generate_lesson_outline frames' self topic subject grade_level
  end.

(** One entry of the list returned by [generate_quiz_questions]. *)
Record Question : Type := {
  question : string;
  options : list string;
  correct_answer : Z;
  explanation : string
}.

(** The dictionary appended at loop index [i]. *)
Definition quiz_question (topic : string) (i : Z) : Question :=
  {| question := "Câu hỏi " ++ str_of_int (i + 1) ++ " về " ++ topic ++ "?";
     options := ["Đáp án A"; "Đáp án B"; "Đáp án C"; "Đáp án D"];
     correct_answer := 0;
     explanation := "Giải thích cho câu " ++ str_of_int (i + 1) |}.

(** [generate_quiz_questions]: the [for] loop appends to [questions]. *)
Definition generate_quiz_questions (topic : string) (num_questions : Z)
    : list Question :=
  fold_left (fun questions i => (questions ++ [quiz_question topic i])%list)
            (range num_questions) [].

End ContentGenerator.

(** ** The part of SQLite the program uses *)

Module Sqlite.

(** *** Tables with an [INTEGER PRIMARY KEY AUTOINCREMENT] *)

Class Row (R : Type) : Type := rowid : R -> Z.

(** The rows in rowid order, and the table's entry in [sqlite_sequence]:
    the largest rowid ever handed out. *)
Record table (R : Type) : Type := {
  rows : list R;
  sequence : Z
}.
Arguments rows {R} _.
Arguments sequence {R} _.

Definition empty_table {R : Type} : table R :=
  {| rows := []; sequence := 0 |}.

Definition max_rowid {R : Type} `{Row R} (l : list R) : Z :=
  fold_right (fun r m => Z.max (rowid r) m) 0 l.

(** AUTOINCREMENT: one more than the largest rowid that is or ever was in
    the table. *)
Definition next_rowid {R : Type} `{Row R} (t : table R) : Z :=
  Z.max (max_rowid (rows t)) (sequence t) + 1.

(** Insert the row [mk i] under the fresh rowid [i]; returns the table and
    [i], the cursor's [lastrowid]. *)
Definition append {R : Type} `{Row R} (mk : Z -> R) (t : table R)
    : table R * Z :=
  let i := next_rowid t in
  ({| rows := rows t ++ [mk i]; sequence := i |}, i).

(** [CREATE TABLE IF NOT EXISTS]: an absent table is created empty, a
    present one is left as it is. *)
Definition create_if_not_exists {R : Type} (t : option (table R))
    : option (table R) :=
  match t with
  | None => Some empty_table
  | Some t => Some t
  end.

(** *** The four schemas *)

Module Lesson.
Record row : Type := {
  id : Z;
  title : text;            (* TEXT NOT NULL *)
  subject : text;
  content : text;
  outline : text;
  created_at : Z           (* TIMESTAMP DEFAULT CURRENT_TIMESTAMP *)
}.
(** The tuple [SELECT *] yields for a row. *)
Definition tuple (r : row) : Z * text * text * text * text * Z :=
  (id r, title r, subject r, content r, outline r, created_at r).
End Lesson.

Module Progress.
Record row : Type := {
  id : Z;
  student_name : text;
  lesson_id : integer;     (* REFERENCES lessons (id) *)
  quiz_score : integer;
  completion_status : text;
  study_time : integer;
  created_at : Z
}.
End Progress.

Module Image.
Record row : Type := {
  id : Z;
  lesson_id : integer;     (* REFERENCES lessons (id) *)
  prompt : text;
  image_path : text;
  created_at : Z
}.
End Image.

Module User.
Record row : Type := {
  id : Z;
  username : text;         (* TEXT UNIQUE *)
  password : text
}.
End User.

#[export] Instance lesson_row : Row Lesson.row := Lesson.id.
#[export] Instance progress_row : Row Progress.row := Progress.id.
#[export] Instance image_row : Row Image.row := Image.id.
#[export] Instance user_row : Row User.row := User.id.

(** *** The database file: each table is absent or present *)

Record database : Type := {
  lessons : option (table Lesson.row);
  student_progress : option (table Progress.row);
  generated_images : option (table Image.row);
  users : option (table User.row)
}.

(** The file [sqlite3.connect] creates when there is none. *)
Definition empty_database : database :=
  {| lessons := None; student_progress := None;
     generated_images := None; users := None |}.

Definition set_lessons (t : option (table Lesson.row)) (d : database) :=
  {| lessons := t; student_progress := student_progress d;
     generated_images := generated_images d; users := users d |}.
Definition set_student_progress (t : option (table Progress.row)) (d : database) :=
  {| lessons := lessons d; student_progress := t;
     generated_images := generated_images d; users := users d |}.
Definition set_generated_images (t : option (table Image.row)) (d : database) :=
  {| lessons := lessons d; student_progress := student_progress d;
     generated_images := t; users := users d |}.
Definition set_users (t : option (table User.row)) (d : database) :=
  {| lessons := lessons d; student_progress := student_progress d;
     generated_images := generated_images d; users := t |}.

(** The rows of a table, none when the table is absent. *)
Definition rows_of {R : Type} (t : option (table R)) : list R :=
  match t with
  | None => []
  | Some t => rows t
  end.

(** SQL [=] on TEXT: NULL equals nothing. *)
Definition text_eq (a b : text) : bool :=
  match a, b with
  | Some x, Some y => String.eqb x y
  | _, _ => false
  end.

(** *** Statements *)

(** [CREATE TABLE IF NOT EXISTS lessons (...)] and its three siblings. *)
Definition create_lessons (d : database) : database :=
  set_lessons (create_if_not_exists (lessons d)) d.
Definition create_student_progress (d : database) : database :=
  set_student_progress (create_if_not_exists (student_progress d)) d.
Definition create_generated_images (d : database) : database :=
  set_generated_images (create_if_not_exists (generated_images d)) d.
Definition create_users (d : database) : database :=
  set_users (create_if_not_exists (users d)) d.

(** [INSERT INTO lessons (title, subject, content, outline) VALUES (?,?,?,?)] *)
Definition insert_lesson (now : Z) (title subject content outline : text)
    (d : database) : result (database * Z) :=
  match lessons d with
  | None => Raise OperationalError                (* no such table *)
  | Some t =>
      match title with
      | None => Raise IntegrityError              (* NOT NULL constraint *)
      | Some _ =>
          let (t', i) :=
            append (fun i => {| Lesson.id := i; Lesson.title := title;
                                Lesson.subject := subject;
                                Lesson.content := content;
                                Lesson.outline := outline;
                                Lesson.created_at := now |}) t in
          Ok (set_lessons (Some t') d, i)
      end
  end.

(** The check [FOREIGN KEY (lesson_id) REFERENCES lessons (id)] asks for,
    made only on a connection whose [foreign_keys] pragma is on. *)
Definition references_lesson (lesson_id : integer) (d : database) : bool :=
  match lesson_id with
  | None => true
  | Some l => existsb (fun r => Lesson.id r =? l) (rows_of (lessons d))
  end.

(** An [int] can be bound as a parameter when it fits a signed 64-bit
    INTEGER; [None] is bound as NULL. *)
Definition fits_int64 (i : integer) : bool :=
  match i with
  | None => true
  | Some z => (- 2 ^ 63 <=? z) && (z <=? 2 ^ 63 - 1)
  end.

(** [INSERT INTO student_progress (student_name, lesson_id, quiz_score,
    completion_status, study_time) VALUES (?,?,?,?,?)] *)
Definition insert_progress (foreign_keys : bool) (now : Z)
    (student_name : text) (lesson_id quiz_score : integer)
    (completion_status : text) (study_time : integer)
    (d : database) : result (database * Z) :=
  match student_progress d with
  | None => Raise OperationalError                (* no such table *)
  | Some t =>
      if negb (fits_int64 lesson_id && fits_int64 quiz_score
               && fits_int64 study_time) then
        Raise OverflowError                       (* a parameter too large *)
      else if foreign_keys && negb (references_lesson lesson_id d) then
        Raise IntegrityError                      (* FOREIGN KEY constraint *)
      else
        let (t', i) :=
          append (fun i => {| Progress.id := i;
                              Progress.student_name := student_name;
                              Progress.lesson_id := lesson_id;
                              Progress.quiz_score := quiz_score;
                              Progress.completion_status := completion_status;
                              Progress.study_time := study_time;
                              Progress.created_at := now |}) t in
        Ok (set_student_progress (Some t') d, i)
  end.

(** [INSERT INTO users (username, password) VALUES (?, ?)] *)
Definition insert_user (username password : text) (d : database)
    : result (database * Z) :=
  match users d with
  | None => Raise OperationalError
  | Some t =>
      if existsb (fun r => text_eq (User.username r) username) (rows t) then
        Raise IntegrityError                      (* UNIQUE constraint *)
      else
        let (t', i) :=
          append (fun i => {| User.id := i; User.username := username;
                              User.password := password |}) t in
        Ok (set_users (Some t') d, i)
  end.

(** [ORDER BY created_at DESC], rows of equal [created_at] staying in rowid
    order. *)
Fixpoint insert_desc (r : Lesson.row) (l : list Lesson.row) : list Lesson.row :=
  match l with
  | [] => [r]
  | x :: l' =>
      if Lesson.created_at x <=? Lesson.created_at r then r :: x :: l'
      else x :: insert_desc r l'
  end.

Definition order_by_created_at_desc (l : list Lesson.row) : list Lesson.row :=
  fold_right insert_desc [] l.

(** [SELECT * FROM lessons ORDER BY created_at DESC] *)
Definition select_lessons (d : database) : result (list Lesson.row) :=
  match lessons d with
  | None => Raise OperationalError
  | Some t => Ok (order_by_created_at_desc (rows t))
  end.

(** [SELECT * FROM users WHERE username=? AND password=?] *)
Definition select_users (username password : text) (d : database)
    : result (list User.row) :=
  match users d with
  | None => Raise OperationalError
  | Some t =>
      Ok (filter (fun r => text_eq (User.username r) username
                           && text_eq (User.password r) password) (rows t))
  end.

(** *** Connections

    [file] is what is committed, [work] what the connection sees. A data
    statement opens a transaction; a schema statement outside a transaction
    is committed at once; [close] drops what was not committed. The
    [foreign_keys] pragma of a new connection is off.

    A statement that writes takes the file's write lock, which the
    connection keeps until [commit] or [close]: [write_lock] says this
    connection holds it, [blocked] that another connection, opened earlier
    and never closed, holds it. Reading needs no lock. *)

Record connection : Type := {
  file : database;
  work : database;
  in_transaction : bool;
  foreign_keys : bool;
  write_lock : bool;
  blocked : bool
}.

(** [sqlite3.connect] on a file whose write lock nobody holds. *)
Definition connect (f : database) : connection :=
  {| file := f; work := f; in_transaction := false; foreign_keys := false;
     write_lock := false; blocked := false |}.

(** The file as the connections sharing it find it: its committed contents,
    and whether a connection that was left open holds its write lock. *)
Record shared : Type := {
  contents : database;
  leaked_lock : bool
}.

Definition connect_shared (s : shared) : connection :=
  {| file := contents s; work := contents s; in_transaction := false;
     foreign_keys := false; write_lock := false; blocked := leaked_lock s |}.

(** A computation on an open connection that may raise. *)
Definition exec (A : Type) : Type := connection -> result A * connection.

Definition ret {A : Type} (a : A) : exec A := fun c => (Ok a, c).

Definition bind {A B : Type} (m : exec A) (k : A -> exec B) : exec B :=
  fun c =>
    match m c with
    | (Ok a, c') => k a c'
    | (Raise e, c') => (Raise e, c')
    end.

(** [try: body except E: handler] *)
Definition try_except {A : Type} (body : exec A) (E : exception)
    (handler : exec A) : exec A :=
  fun c =>
    match body c with
    | (Ok a, c') => (Ok a, c')
    | (Raise e, c') =>
        if exception_eqb e E then handler c' else (Raise e, c')
    end.

(** A table that is not there. *)
Definition absent {R : Type} (t : option (table R)) : bool :=
  match t with
  | None => true
  | Some _ => false
  end.

(** [cursor.execute] of [CREATE TABLE IF NOT EXISTS]: [missing] tells whether
    the table is missing, so that the statement has to write; it then needs
    the write lock, and raises (database is locked) when another connection
    holds it. *)
Definition execute_ddl (missing : database -> bool)
    (stmt : database -> database) : exec unit :=
  fun c =>
    if blocked c && missing (work c) then (Raise OperationalError, c)
    else
      let w := stmt (work c) in
      (Ok tt, {| file := if in_transaction c then file c else w;
                 work := w;
                 in_transaction := in_transaction c;
                 foreign_keys := foreign_keys c;
                 write_lock := write_lock c;
                 blocked := blocked c |}).

(** The connection once the implicit [BEGIN] before an [INSERT] has run. *)
Definition begun (c : connection) : connection :=
  {| file := file c; work := work c; in_transaction := true;
     foreign_keys := foreign_keys c; write_lock := write_lock c;
     blocked := blocked c |}.

(** [cursor.execute] of an [INSERT]; the statement sees the connection's
    [foreign_keys] pragma. In this order: a missing table is reported when
    the statement is prepared, before anything begins; a parameter that does
    not fit is reported when it is bound, after the [BEGIN]; then the
    statement runs, which needs the write lock and raises (database is
    locked) when another connection holds it; a statement that a constraint
    refuses changes nothing but has taken the lock. *)
Definition execute_insert {A : Type}
    (stmt : bool -> database -> result (database * A)) : exec A :=
  fun c =>
    match stmt (foreign_keys c) (work c) with
    | Raise OperationalError => (Raise OperationalError, c)
    | Raise OverflowError => (Raise OverflowError, begun c)
    | Ok (w, a) =>
        if blocked c then (Raise OperationalError, begun c)
        else
          (Ok a, {| file := file c; work := w; in_transaction := true;
                    foreign_keys := foreign_keys c; write_lock := true;
                    blocked := blocked c |})
    | Raise e =>
        if blocked c then (Raise OperationalError, begun c)
        else
          (Raise e, {| file := file c; work := work c; in_transaction := true;
                       foreign_keys := foreign_keys c; write_lock := true;
                       blocked := blocked c |})
    end.

(** [cursor.execute] of a [SELECT], with the rows it fetches. *)
Definition execute_select {A : Type} (stmt : database -> result A) : exec A :=
  fun c =>
    match stmt (work c) with
    | Ok a => (Ok a, c)
    | Raise e => (Raise e, c)
    end.

Definition commit : exec unit :=
  fun c => (Ok tt, {| file := work c; work := work c; in_transaction := false;
                      foreign_keys := foreign_keys c; write_lock := false;
                      blocked := blocked c |}).

Definition close : exec unit :=
  fun c => (Ok tt, {| file := file c; work := file c; in_transaction := false;
                      foreign_keys := foreign_keys c; write_lock := false;
                      blocked := blocked c |}).

(** A method or handler that connects to a file whose write lock nobody
    holds, and runs [body]: its result, and the contents of the file
    afterwards. *)
Definition method (A : Type) : Type := database -> result A * database.

Definition with_connection {A : Type} (body : exec A) : method A :=
  fun f => let (r, c) := body (connect f) in (r, file c).

(** The same on a shared file. When [body] raises before its [close], the
    connection stays open: if it holds the write lock, the lock stays held
    after the call. *)
Definition shared_method (A : Type) : Type := shared -> result A * shared.

Definition with_shared_connection {A : Type} (body : exec A)
    : shared_method A :=
  fun s =>
    let (r, c) := body (connect_shared s) in
    (r, {| contents := file c;
           leaked_lock := leaked_lock s || write_lock c |}).

(** The interpreter reclaims the connections that were left open: their
    transactions are rolled back and the lock is free again. *)
Definition collect (s : shared) : shared :=
  {| contents := contents s; leaked_lock := false |}.

End Sqlite.
Import Sqlite.

Notation "x <- m ;; k" := (Sqlite.bind m (fun x => k))
  (at level 61, m at next level, right associativity).
Notation "m ;; k" := (Sqlite.bind m (fun _ => k))
  (at level 61, right associativity).

(** ** class DatabaseManager *)

Module DatabaseManager.

(** [init_database]: what runs once connected, and the method. *)
Definition init_database_steps : exec unit :=
  execute_ddl (fun d => absent (lessons d)) create_lessons ;;
  execute_ddl (fun d => absent (student_progress d)) create_student_progress ;;
  execute_ddl (fun d => absent (generated_images d)) create_generated_images ;;
  commit ;;
  close.

Definition init_database : method unit :=
  with_connection init_database_steps.

(** [save_lesson]; [now] is the clock when the [INSERT] runs. *)
Definition save_lesson_steps (now : Z) (title subject content outline : text)
    : exec Z :=
  lesson_id <- execute_insert
                 (fun _ => insert_lesson now title subject content outline) ;;
  commit ;;
  close ;;
  ret lesson_id.

Definition save_lesson (now : Z) (title subject content outline : text)
    : method Z :=
  with_connection (save_lesson_steps now title subject content outline).

(** One dictionary of the list [get_lessons] returns. *)
Record dict : Type := {
  id : Z;
  title : text;
  subject : text;
  content : text;
  outline : text;
  created_at : Z
}.

(** The body of the list comprehension, on a fetched tuple. *)
Definition to_dict (lesson : Z * text * text * text * text * Z) : dict :=
  let '(lesson0, lesson1, lesson2, lesson3, lesson4, lesson5) := lesson in
  {| id := lesson0; title := lesson1; subject := lesson2;
     content := lesson3; outline := lesson4; created_at := lesson5 |}.

(** [get_lessons] *)
Definition get_lessons_steps : exec (list dict) :=
  lessons <- execute_select select_lessons ;;
  close ;;
  ret (map (fun lesson => to_dict (Lesson.tuple lesson)) lessons).

Definition get_lessons : method (list dict) :=
  with_connection get_lessons_steps.

(** [save_progress] *)
Definition save_progress_steps (now : Z) (student_name : text)
    (lesson_id quiz_score : integer) (completion_status : text)
    (study_time : integer) : exec unit :=
  execute_insert
    (fun foreign_keys =>
       insert_progress foreign_keys now student_name lesson_id quiz_score
                       completion_status study_time) ;;
  commit ;;
  close.

Definition save_progress (now : Z) (student_name : text)
    (lesson_id quiz_score : integer) (completion_status : text)
    (study_time : integer) : method unit :=
  with_connection
    (save_progress_steps now student_name lesson_id quiz_score
       completion_status study_time).

End DatabaseManager.

(** ** login_page: the two button handlers *)

Module LoginPage.

(** What the handler shows: [st.success(msg)] or [st.error(msg)]. *)
Inductive feedback : Type :=
| success (msg : string)
| error (msg : string).

Definition account_created : feedback :=
  success "Tạo tài khoản thành công! Hãy đăng nhập.".
Definition DuplicateUsername : feedback :=
  error "Tên đăng nhập đã tồn tại!".
Definition welcome (username : string) : feedback :=
  success ("Xin chào " ++ username ++ "! 🎉").
Definition wrong_credentials : feedback :=
  error "Sai tên đăng nhập hoặc mật khẩu!".

(** The two keys of [st.session_state] the page writes. *)
Record session_state : Type := {
  logged_in : bool;
  username : option string
}.

(** The handler of the button under [choice == "Đăng ký"]. *)
Definition register (username password : string) : method feedback :=
  with_connection
    (execute_ddl (fun d => absent (users d)) create_users ;;
     shown <- try_except
                (execute_insert
                   (fun _ => insert_user (Some username) (Some password)) ;;
                 commit ;;
                 ret account_created)
                IntegrityError
                (ret DuplicateUsername) ;;
     close ;;
     ret shown).

(** The query of the button under [choice == "Đăng nhập"]:
    [user = cursor.fetchone()]. *)
Definition authenticate (username password : string)
    : method (option User.row) :=
  with_connection
    (found <- execute_select
                (select_users (Some username) (Some password)) ;;
     let user := hd_error found in
     close ;;
     ret user).

(** The whole handler: the query, then [if user: ... else: ...]. *)
Definition login (username password : string) (st : session_state)
    : method (session_state * feedback) :=
  fun f =>
    match authenticate username password f with
    | (Ok (Some _), f') =>
        (Ok ({| logged_in := true; LoginPage.username := Some username |},
             welcome username), f')
    | (Ok None, f') => (Ok (st, wrong_credentials), f')
    | (Raise e, f') => (Raise e, f')
    end.

End LoginPage.

(** ** The methods of DatabaseManager on a shared file *)

Module SharedFile.

Definition save_lesson (now : Z) (title subject content outline : text)
    : shared_method Z :=
  with_shared_connection
    (DatabaseManager.save_lesson_steps now title subject content outline).

Definition get_lessons : shared_method (list DatabaseManager.dict) :=
  with_shared_connection DatabaseManager.get_lessons_steps.

Definition save_progress (now : Z) (student_name : text)
    (lesson_id quiz_score : integer) (completion_status : text)
    (study_time : integer) : shared_method unit :=
  with_shared_connection
    (DatabaseManager.save_progress_steps now student_name lesson_id
       quiz_score completion_status study_time).

End SharedFile.

(** ** Sequences of store operations *)

Module Store.

(** A call of one of the operations that write the store. *)
Inductive call : Type :=
| InitDatabase
| SaveLesson (now : Z) (title subject content outline : text)
| SaveProgress (now : Z) (student_name : text) (lesson_id quiz_score : integer)
               (completion_status : text) (study_time : integer)
| Register (username password : string).

(** The contents of the file after a call; a call that raises leaves what
    its connection had committed. Every call of a sequence finds the write
    lock free: a connection that an earlier call left open has been
    reclaimed (see [collect]). *)
Definition step (c : call) (f : database) : database :=
  match c with
  | InitDatabase => snd (DatabaseManager.init_database f)
  | SaveLesson now title subject content outline =>
      snd (DatabaseManager.save_lesson now title subject content outline f)
  | SaveProgress now student_name lesson_id quiz_score status study_time =>
      snd (DatabaseManager.save_progress now student_name lesson_id
             quiz_score status study_time f)
  | Register username password =>
      snd (LoginPage.register username password f)
  end.

Definition run (calls : list call) (f : database) : database :=
  fold_left (fun f c => step c f) calls f.

(** A username some row of the accounts table already holds. *)
Definition registered (username : string) (f : database) : Prop :=
  exists r, In r (rows_of (users f)) /\ User.username r = Some username.

(** Most recent first: each lesson is at least as recent as the next. *)
Definition newer_first (a b : Lesson.row) : Prop :=
  Lesson.created_at b <= Lesson.created_at a.

Definition dict_newer_first (a b : DatabaseManager.dict) : Prop :=
  DatabaseManager.created_at b <= DatabaseManager.created_at a.

(** The rows a table had are still its first rows, untouched and in the
    same order; rows may have been added after them. *)
Definition kept {R : Type} (old new : option (table R)) : Prop :=
  exists added, rows_of new = (rows_of old ++ added)%list.

Definition insert_only (f f' : database) : Prop :=
  kept (lessons f) (lessons f') /\
  kept (student_progress f) (student_progress f') /\
  kept (generated_images f) (generated_images f') /\
  kept (users f) (users f').

(** The three tables of [init_database] exist. *)
Definition entity_tables_exist (f : database) : Prop :=
  lessons f <> None /\ student_progress f <> None /\
  generated_images f <> None.

End Store.
Import Store.

(** ** base64.b64encode *)

Module Base64.

Definition alphabet : string :=
  "ABCDEFGHIJKLMNOPQRSTUVWXYZabcdefghijklmnopqrstuvwxyz0123456789+/".

Definition pad : ascii := "="%char.

(** Six bits, the most significant first. *)
Definition sextet : Type := (bool * bool * bool * bool * bool * bool)%type.

Definition value (s : sextet) : N :=
  let '(b5, b4, b3, b2, b1, b0) := s in
  N_of_ascii (Ascii b0 b1 b2 b3 b4 b5 false false).

(** The character that stands for a six-bit value. *)
Definition digit (s : sextet) : ascii :=
  match String.get (N.to_nat (value s)) alphabet with
  | Some c => c
  | None => pad
  end.

(** Three bytes give four characters. ([Ascii] lists the bits of a byte from
    the least significant.) *)
Definition encode3 (a b c : ascii) : string :=
  let '(Ascii a0 a1 a2 a3 a4 a5 a6 a7) := a in
  let '(Ascii b0 b1 b2 b3 b4 b5 b6 b7) := b in
  let '(Ascii c0 c1 c2 c3 c4 c5 c6 c7) := c in
  String (digit (a7, a6, a5, a4, a3, a2))
 (String (digit (a1, a0, b7, b6, b5, b4))
 (String (digit (b3, b2, b1, b0, c7, c6))
 (String (digit (c5, c4, c3, c2, c1, c0)) ""))).

(** Two last bytes give three characters and one pad. *)
Definition encode2 (a b : ascii) : string :=
  let '(Ascii a0 a1 a2 a3 a4 a5 a6 a7) := a in
  let '(Ascii b0 b1 b2 b3 b4 b5 b6 b7) := b in
  String (digit (a7, a6, a5, a4, a3, a2))
 (String (digit (a1, a0, b7, b6, b5, b4))
 (String (digit (b3, b2, b1, b0, false, false))
 (String pad ""))).

(** One last byte gives two characters and two pads. *)
Definition encode1 (a : ascii) : string :=
  let '(Ascii a0 a1 a2 a3 a4 a5 a6 a7) := a in
  String (digit (a7, a6, a5, a4, a3, a2))
 (String (digit (a1, a0, false, false, false, false))
 (String pad (String pad ""))).

Fixpoint b64encode (s : string) : string :=
  match s with
  | EmptyString => ""
  | String a EmptyString => encode1 a
  | String a (String b EmptyString) => encode2 a b
  | String a (String b (String c rest)) => encode3 a b c ++ b64encode rest
  end.

(** The inverse, used to state that nothing is lost: the six bits a
    character of the alphabet stands for, and the bytes of padded text. *)
Definition sextets : list sextet :=
  let bits := [false; true] in
  flat_map (fun b5 => flat_map (fun b4 => flat_map (fun b3 =>
  flat_map (fun b2 => flat_map (fun b1 => map (fun b0 =>
    (b5, b4, b3, b2, b1, b0)) bits) bits) bits) bits) bits) bits.

Definition index (c : ascii) : option sextet :=
  find (fun s => Ascii.eqb (digit s) c) sextets.

Definition decode3 (c1 c2 c3 c4 : ascii) : option string :=
  match index c1, index c2, index c3, index c4 with
  | Some (a7, a6, a5, a4, a3, a2), Some (a1, a0, b7, b6, b5, b4),
    Some (b3, b2, b1, b0, c7, c6), Some (c5, c4, c3, c2, c1, c0) =>
      Some (String (Ascii a0 a1 a2 a3 a4 a5 a6 a7)
           (String (Ascii b0 b1 b2 b3 b4 b5 b6 b7)
           (String (Ascii c0 c1 c2 c3 c4 c5 c6 c7) "")))
  | _, _, _, _ => None
  end.

Definition decode2 (c1 c2 c3 : ascii) : option string :=
  match index c1, index c2, index c3 with
  | Some (a7, a6, a5, a4, a3, a2), Some (a1, a0, b7, b6, b5, b4),
    Some (b3, b2, b1, b0, _, _) =>
      Some (String (Ascii a0 a1 a2 a3 a4 a5 a6 a7)
           (String (Ascii b0 b1 b2 b3 b4 b5 b6 b7) ""))
  | _, _, _ => None
  end.

Definition decode1 (c1 c2 : ascii) : option string :=
  match index c1, index c2 with
  | Some (a7, a6, a5, a4, a3, a2), Some (a1, a0, _, _, _, _) =>
      Some (String (Ascii a0 a1 a2 a3 a4 a5 a6 a7) "")
  | _, _ => None
  end.

Fixpoint b64decode (s : string) : option string :=
  match s with
  | EmptyString => Some ""
  | String c1 (String c2 (String c3 (String c4 rest))) =>
      if Ascii.eqb c4 pad then
        match rest with
        | EmptyString =>
            if Ascii.eqb c3 pad then decode1 c1 c2 else decode2 c1 c2 c3
        | String _ _ => None
        end
      else
        match decode3 c1 c2 c3 c4, b64decode rest with
        | Some bytes, Some more => Some (bytes ++ more)
        | _, _ => None
        end
  | _ => None
  end.

End Base64.

(** ** class ImageGenerator *)

Module ImageGenerator.

Record t : Type := {
  api_url : string
}.

(** [__init__(self)] *)
Definition init : t :=
  {| api_url := "https://api.stability.ai/v1/generation/stable-diffusion-xl-1024-v1-0/text-to-image" |}.

(** The double quote character. *)
Definition dq : string := String "034"%char "".

(** The text of the f-string before and after [{topic}]. *)
Definition svg_head : string :=
  "
        <svg width=" ++ dq ++ "400" ++ dq ++ " height=" ++ dq ++ "300" ++ dq ++ " xmlns=" ++ dq ++ "http://www.w3.org/2000/svg" ++ dq ++ ">
            <rect width=" ++ dq ++ "400" ++ dq ++ " height=" ++ dq ++ "300" ++ dq ++ " fill=" ++ dq ++ "#f0f0f0" ++ dq ++ " stroke=" ++ dq ++ "#ddd" ++ dq ++ "/>
            <text x=" ++ dq ++ "200" ++ dq ++ " y=" ++ dq ++ "150" ++ dq ++ " text-anchor=" ++ dq ++ "middle" ++ dq ++ " fill=" ++ dq ++ "#666" ++ dq ++ " font-size=" ++ dq ++ "16" ++ dq ++ ">
                Hình minh họa cho: ".

Definition svg_tail : string :=
  "
            </text>
            <text x=" ++ dq ++ "200" ++ dq ++ " y=" ++ dq ++ "180" ++ dq ++ " text-anchor=" ++ dq ++ "middle" ++ dq ++ " fill=" ++ dq ++ "#999" ++ dq ++ " font-size=" ++ dq ++ "12" ++ dq ++ ">
                (Sẽ được tạo bằng AI)
            </text>
        </svg>
        ".

(** [create_placeholder_svg] *)
Definition create_placeholder_svg (self : t) (topic : string) : string :=
  svg_head ++ topic ++ svg_tail.

Definition data_uri_prefix : string := "data:image/svg+xml;base64,".

(** [generate_illustration]. The text is held as its UTF-8 bytes, so
    [.encode()] and the [.decode()] of the encoded text leave it as it is. *)
Definition generate_illustration (self : t) (prompt topic : string) : string :=
  data_uri_prefix ++ Base64.b64encode (create_placeholder_svg self topic).

End ImageGenerator.

(** ** main: one run of the script

    A run reads the widgets, may change [st.session_state] and the database
    file, and draws the page. [main] gives the session and the file a run
    leaves behind, whether it reached its end or an exception stopped it; the
    drawing calls are not represented. [json.dumps] is a parameter. *)

Module Main.

(** What the widgets return during one run. *)
Record widgets : Type := {
  (* login_page *)
  choice : string;                  (* st.radio("Bạn muốn:") *)
  username : string;                (* st.text_input("Tên đăng nhập:") *)
  password : string;                (* st.text_input("Mật khẩu:") *)
  create_account_clicked : bool;    (* st.button("Tạo tài khoản") *)
  login_clicked : bool;             (* st.button("Đăng nhập") *)
  (* sidebar *)
  page : string;                    (* st.sidebar.selectbox("Chọn chức năng:") *)
  (* page "Tạo bài giảng" *)
  topic : string;
  subject : string;
  grade_level : string;
  outline_clicked : bool;           (* st.button("🚀 Tạo Dàn Ý") *)
  include_images : bool;
  include_quiz : bool;
  save_clicked : bool;              (* st.button("💾 Lưu Bài Học") *)
  quiz_clicked : bool;              (* st.button("❓ Tạo Câu Hỏi") *)
  (* page "Tạo câu hỏi" *)
  topic_quiz : string;
  num_questions : Z;                (* st.slider("Số câu hỏi:", 3, 20, 5) *)
  generate_clicked : bool           (* st.button("🎯 Tạo Câu Hỏi") *)
}.

(** The keys of [st.session_state]; [None] is a key not yet set. *)
Record session : Type := {
  account : LoginPage.session_state;     (* "logged_in", "username" *)
  current_lesson : option ContentGenerator.LessonDocument;
  show_quiz : option bool;
  quiz_questions : option (list ContentGenerator.Question)
}.

Definition new_session : session :=
  {| account := {| LoginPage.logged_in := false; LoginPage.username := None |};
     current_lesson := None; show_quiz := None; quiz_questions := None |}.

Definition set_account (a : LoginPage.session_state) (st : session) : session :=
  {| account := a; current_lesson := current_lesson st;
     show_quiz := show_quiz st; quiz_questions := quiz_questions st |}.
Definition set_current_lesson (l : ContentGenerator.LessonDocument) (st : session)
    : session :=
  {| account := account st; current_lesson := Some l;
     show_quiz := show_quiz st; quiz_questions := quiz_questions st |}.
Definition set_show_quiz (b : bool) (st : session) : session :=
  {| account := account st; current_lesson := current_lesson st;
     show_quiz := Some b; quiz_questions := quiz_questions st |}.
Definition set_quiz_questions (q : list ContentGenerator.Question) (st : session)
    : session :=
  {| account := account st; current_lesson := current_lesson st;
     show_quiz := show_quiz st; quiz_questions := Some q |}.

(** [login_page(db)]: the branch of [choice], then the button. *)
Definition login_page (w : widgets) (st : session) (f : database)
    : session * database :=
  if (choice w =? "Đăng ký")%string then
    if create_account_clicked w then
      (st, snd (LoginPage.register (username w) (password w) f))
    else (st, f)
  else if (choice w =? "Đăng nhập")%string then
    if login_clicked w then
      match LoginPage.login (username w) (password w) (account st) f with
      | (Ok (a, _), f') => (set_account a st, f')
      | (Raise _, f') => (st, f')
      end
    else (st, f)
  else (st, f).

Section Pages.

(** [json.dumps] on a list of strings. *)
Variable json_dumps : list string -> string.

(** The clock when the run executes an [INSERT], and the stack frames the
    interpreter leaves to a call made from [main]. *)
Variables (now : Z) (frames : nat).

(** [page == "Tạo bài giảng"] *)
Definition lesson_page (content_gen : ContentGenerator.t)
    (image_gen : ImageGenerator.t) (w : widgets) (st : session) (f : database)
    : session * database :=
  let generated :=
    if outline_clicked w then
      if truthy (Some (topic w)) then
        match ContentGenerator.generate_lesson_outline frames content_gen
                (topic w) (subject w) (grade_level w) with
        | Ok lesson_data => Ok (set_current_lesson lesson_data st)
        | Raise e => Raise e
        end
      else Ok st
    else Ok st in
  match generated with
  | Raise _ => (st, f)
  | Ok st =>
      match current_lesson st with
      | None => (st, f)
      | Some lesson =>
          let _ :=
            if include_images w then
              Some (ImageGenerator.generate_illustration image_gen
                      ("educational illustration for " ++ topic w) (topic w))
            else None in
          let saved :=
            if save_clicked w then
              DatabaseManager.save_lesson now
                (Some (ContentGenerator.title lesson))
                (Some (subject w))
                (Some (ContentGenerator.content lesson))
                (Some (json_dumps (ContentGenerator.outline lesson))) f
            else (Ok 0%Z, f) in
          match saved with
          | (Raise _, f) => (st, f)
          | (Ok _, f) =>
              if include_quiz w && quiz_clicked w then (set_show_quiz true st, f)
              else (st, f)
          end
      end
  end.

(** [page == "Quản lý bài học"]: the list is read and drawn. *)
Definition manage_page (w : widgets) (st : session) (f : database)
    : session * database :=
  (st, snd (DatabaseManager.get_lessons f)).

(** [page == "Tạo câu hỏi"] *)
Definition quiz_page (content_gen : ContentGenerator.t) (w : widgets)
    (st : session) (f : database) : session * database :=
  if generate_clicked w then
    if truthy (Some (topic_quiz w)) then
      (set_quiz_questions
         (ContentGenerator.generate_quiz_questions (topic_quiz w)
            (num_questions w)) st, f)
    else (st, f)
  else (st, f).

(** [main()] *)
Definition main (w : widgets) (st : session) (f : database)
    : session * database :=
  let f := snd (DatabaseManager.init_database f) in   (* db = DatabaseManager() *)
  let content_gen := ContentGenerator.init None in
  let image_gen := ImageGenerator.init in
  if negb (LoginPage.logged_in (account st)) then
    login_page w st f
  else if (page w =? "Tạo bài giảng")%string then
    lesson_page content_gen image_gen w st f
  else if (page w =? "Quản lý bài học")%string then
    manage_page w st f
  else if (page w =? "Tạo câu hỏi")%string then
    quiz_page content_gen w st f
  else (st, f).

End Pages.

(** A browsing session: the runs of the script one after the other, each
    with its clock and its widget values. *)
Definition runs (json_dumps : list string -> string) (frames : nat)
    (l : list (Z * widgets)) (st : session) (f : database)
    : session * database :=
  fold_left (fun s r => main json_dumps (fst r) frames (snd r) (fst s) (snd s))
            l (st, f).

End Main.

(** ** Invariants of the store *)

Module Invariant.

(** How a table can change: not at all, by being created empty, or by one
    row added under the next rowid; and any succession of these. *)
Inductive grows {R : Type} `{Row R} : option (table R) -> option (table R) -> Prop :=
| grows_same (t : option (table R)) : grows t t
| grows_create : grows None (Some empty_table)
| grows_append (t : table R) (r : R) :
    rowid r = next_rowid t ->
    grows (Some t) (Some {| rows := rows t ++ [r]; sequence := next_rowid t |})
| grows_trans (a b c : option (table R)) : grows a b -> grows b c -> grows a c.

(** Row ids increase along the table. *)
Definition ids_ascending {R : Type} `{Row R} (t : option (table R)) : Prop :=
  StronglySorted Z.lt (map rowid (rows_of t)).

Definition ids_ascending_db (f : database) : Prop :=
  ids_ascending (lessons f) /\ ids_ascending (student_progress f) /\
  ids_ascending (generated_images f) /\ ids_ascending (users f).

(** The usernames of the accounts, in row order. *)
Definition usernames (f : database) : list string :=
  flat_map (fun r => match User.username r with
                     | Some u => [u]
                     | None => []
                     end) (rows_of (users f)).

End Invariant.
Import Invariant.

(** * Properties *)

(** ** ContentGenerator *)

Section Outline.
Import ContentGenerator.

Variables (self : t) (topic subject grade_level : string).

(** Without a key one frame is enough: the template comes back. *)
Lemma generate_lesson_outline_fallback (frames : nat) :
  truthy (api_key self) = false ->
  generate_lesson_outline (S frames) self topic subject grade_level
  = Ok (template topic subject).
Proof.
  intros Hkey. simpl. rewrite Hkey. reflexivity.
Qed.

(** With a key every frame makes the same call again, whatever the depth
    the interpreter allows. *)
Lemma generate_lesson_outline_recurses (frames : nat) :
  truthy (api_key self) = true ->
  generate_lesson_outline frames self topic subject grade_level
  = Raise RecursionError.
Proof.
  intros Hkey. induction frames as [|frames IH]; simpl.
  - reflexivity.
  - rewrite Hkey. simpl. exact IH.
Qed.

End Outline.

(** C1 (the code departs from the claim). With an API key configured,
    [generate_lesson_outline "Pythagoras" "Math" "Secondary"] never reaches
    the template: at every recursion depth the call ends in
    [RecursionError]. *)
Theorem generate_lesson_outline_api_key_RecursionError (frames : nat) :
  ContentGenerator.generate_lesson_outline frames
    (ContentGenerator.init (Some "sk-test")) "Pythagoras" "Math" "Secondary"
  = Raise RecursionError.
Proof.
  apply generate_lesson_outline_recurses. reflexivity.
Qed.

(** The same call on a generator built without a key returns the template,
    and so does every repetition of it. *)
Lemma generate_lesson_outline_no_key (frames : nat) :
  ContentGenerator.generate_lesson_outline (S frames)
    (ContentGenerator.init None) "Pythagoras" "Math" "Secondary"
  = Ok (ContentGenerator.template "Pythagoras" "Math").
Proof.
  apply generate_lesson_outline_fallback. reflexivity.
Qed.

Section Quiz.
Import ContentGenerator.

(** The loop that appends one element per index builds a [map]. *)
Lemma append_loop_map {A B : Type} (g : A -> B) (l : list A) (acc : list B) :
  fold_left (fun questions i => (questions ++ [g i])%list) l acc
  = (acc ++ map g l)%list.
Proof.
  revert acc. induction l as [|a l IH]; intros acc; simpl.
  - now rewrite app_nil_r.
  - rewrite IH, <- app_assoc. reflexivity.
Qed.

Lemma generate_quiz_questions_map (topic : string) (n : Z) :
  generate_quiz_questions topic n = map (quiz_question topic) (range n).
Proof.
  unfold generate_quiz_questions. now rewrite append_loop_map.
Qed.

Lemma range_length (n : Z) : length (range n) = Z.to_nat n.
Proof.
  unfold range. now rewrite length_map, length_seq.
Qed.

Lemma range_nth (n i : Z) :
  0 <= i < n -> nth_error (range n) (Z.to_nat i) = Some i.
Proof.
  intros Hi. unfold range.
  rewrite nth_error_map, nth_error_seq.
  destruct (Nat.ltb_spec (Z.to_nat i) (Z.to_nat n)) as [_|Hge]; [|lia].
  simpl. f_equal. lia.
Qed.

End Quiz.

(** C7. For every topic and every [n >= 0], [generate_quiz_questions topic n]
    is a list of exactly [n] records; the record at position [i] is the one
    built from the index [i] alone (numbered [i+1]), and every record carries
    four options. *)
Theorem generate_quiz_questions_count (topic : string) (n : Z) :
  0 <= n ->
  let qs := ContentGenerator.generate_quiz_questions topic n in
  Z.of_nat (length qs) = n /\
  (forall i, 0 <= i < n ->
     nth_error qs (Z.to_nat i) = Some (ContentGenerator.quiz_question topic i)) /\
  Forall (fun q => length (ContentGenerator.options q) = 4%nat) qs.
Proof.
  intros Hn qs. subst qs. rewrite generate_quiz_questions_map.
  repeat split.
  - rewrite length_map, range_length. lia.
  - intros i Hi. rewrite nth_error_map, range_nth by exact Hi. reflexivity.
  - apply Forall_map, Forall_forall. intros i _. reflexivity.
Qed.

Lemma generate_quiz_questions_count_witness :
  0 <= 3 /\
  let qs := ContentGenerator.generate_quiz_questions "Pythagoras" 3 in
  Z.of_nat (length qs) = 3 /\
  (forall i, 0 <= i < 3 ->
     nth_error qs (Z.to_nat i)
     = Some (ContentGenerator.quiz_question "Pythagoras" i)) /\
  Forall (fun q => length (ContentGenerator.options q) = 4%nat) qs.
Proof.
  split; [lia|].
  apply (generate_quiz_questions_count "Pythagoras" 3). lia.
Defined.

(** Three questions about "Pythagoras", numbered from 1. *)
Example generate_quiz_questions_three :
  map ContentGenerator.question
      (ContentGenerator.generate_quiz_questions "Pythagoras" 3)
  = ["Câu hỏi 1 về Pythagoras?"; "Câu hỏi 2 về Pythagoras?";
     "Câu hỏi 3 về Pythagoras?"].
Proof. reflexivity. Qed.

(** C10. In every record of [generate_quiz_questions topic n] the correct
    answer is index 0 and the options are the same four placeholders, so the
    first option is the one marked correct. *)
Theorem generate_quiz_questions_first_option_correct (topic : string) (n : Z) :
  Forall (fun q =>
            ContentGenerator.correct_answer q = 0 /\
            ContentGenerator.options q
            = ["Đáp án A"; "Đáp án B"; "Đáp án C"; "Đáp án D"] /\
            nth_error (ContentGenerator.options q)
                      (Z.to_nat (ContentGenerator.correct_answer q))
            = Some "Đáp án A")
         (ContentGenerator.generate_quiz_questions topic n).
Proof.
  rewrite generate_quiz_questions_map.
  apply Forall_map, Forall_forall. intros i _. repeat split.
Qed.

(** ** What each method does to the file *)

Section MethodEquations.
Import DatabaseManager LoginPage.

Lemma init_database_eq (f : database) :
  init_database f
  = (Ok tt, create_generated_images (create_student_progress (create_lessons f))).
Proof. reflexivity. Qed.

Lemma save_lesson_eq now title subject content outline (f : database) :
  save_lesson now title subject content outline f
  = match insert_lesson now title subject content outline f with
    | Ok (f', i) => (Ok i, f')
    | Raise e => (Raise e, f)
    end.
Proof.
  unfold save_lesson, save_lesson_steps, with_connection, bind,
    execute_insert. simpl.
  destruct (insert_lesson now title subject content outline f) as [[f' i]|[]];
    reflexivity.
Qed.

Lemma get_lessons_eq (f : database) :
  get_lessons f
  = match select_lessons f with
    | Ok fetched =>
        (Ok (map (fun lesson => to_dict (Lesson.tuple lesson)) fetched), f)
    | Raise e => (Raise e, f)
    end.
Proof.
  unfold get_lessons, get_lessons_steps, with_connection, bind,
    execute_select. simpl.
  destruct (select_lessons f); reflexivity.
Qed.

Lemma save_progress_eq now student_name lesson_id quiz_score status study_time
    (f : database) :
  save_progress now student_name lesson_id quiz_score status study_time f
  = match insert_progress false now student_name lesson_id quiz_score
                          status study_time f with
    | Ok (f', _) => (Ok tt, f')
    | Raise e => (Raise e, f)
    end.
Proof.
  unfold save_progress, save_progress_steps, with_connection, bind,
    execute_insert. simpl.
  destruct (insert_progress false now student_name lesson_id quiz_score
                            status study_time f) as [[f' i]|[]]; reflexivity.
Qed.

Lemma register_eq (username password : string) (f : database) :
  register username password f
  = match insert_user (Some username) (Some password) (create_users f) with
    | Ok (f', _) => (Ok account_created, f')
    | Raise IntegrityError => (Ok DuplicateUsername, create_users f)
    | Raise e => (Raise e, create_users f)
    end.
Proof.
  unfold register, with_connection, try_except, bind, execute_insert,
    execute_ddl. simpl.
  destruct (insert_user (Some username) (Some password) (create_users f))
    as [[f' i]|[]]; reflexivity.
Qed.

Lemma authenticate_eq (username password : string) (f : database) :
  authenticate username password f
  = match select_users (Some username) (Some password) f with
    | Ok found => (Ok (hd_error found), f)
    | Raise e => (Raise e, f)
    end.
Proof.
  unfold authenticate, with_connection, bind, execute_select. simpl.
  destruct (select_users (Some username) (Some password) f); reflexivity.
Qed.

End MethodEquations.

(** ** Row ids and the ordering of [get_lessons] *)

Section Rows.
Context {R : Type} `{Row R}.

Lemma max_rowid_ge (l : list R) (r : R) : In r l -> rowid r <= max_rowid l.
Proof.
  induction l as [|x l IH]; simpl; [easy|].
  intros [->|Hin]; [lia|]. specialize (IH Hin). lia.
Qed.

(** A fresh rowid is above the id of every row of the table. *)
Lemma next_rowid_fresh (t : table R) (r : R) :
  In r (rows t) -> rowid r < next_rowid t.
Proof.
  intros Hin. apply max_rowid_ge in Hin. unfold next_rowid. lia.
Qed.

End Rows.

Lemma insert_desc_perm (r : Lesson.row) (l : list Lesson.row) :
  Permutation (insert_desc r l) (r :: l).
Proof.
  induction l as [|x l IH]; simpl; [reflexivity|].
  destruct (Lesson.created_at x <=? Lesson.created_at r); [reflexivity|].
  rewrite IH. apply perm_swap.
Qed.

Lemma order_by_created_at_desc_perm (l : list Lesson.row) :
  Permutation (order_by_created_at_desc l) l.
Proof.
  induction l as [|r l IH]; simpl; [reflexivity|].
  rewrite insert_desc_perm. now constructor.
Qed.

Lemma insert_desc_sorted (r : Lesson.row) (l : list Lesson.row) :
  StronglySorted newer_first l -> StronglySorted newer_first (insert_desc r l).
Proof.
  induction 1 as [|x l Hl IH Hx]; simpl.
  - repeat constructor.
  - destruct (Z.leb_spec (Lesson.created_at x) (Lesson.created_at r)) as [Hle|Hgt].
    + constructor; [now constructor|].
      constructor; [exact Hle|].
      eapply Forall_impl; [|exact Hx]. unfold newer_first. intros; lia.
    + constructor; [exact IH|].
      apply (Permutation_Forall (Permutation_sym (insert_desc_perm r l))).
      constructor; [unfold newer_first; lia|exact Hx].
Qed.

Lemma order_by_created_at_desc_sorted (l : list Lesson.row) :
  StronglySorted newer_first (order_by_created_at_desc l).
Proof.
  induction l as [|r l IH]; simpl; [constructor|].
  now apply insert_desc_sorted.
Qed.

(** When every row is strictly older than the rows after it (the clock
    advanced between any two inserts), the order is the reverse of the order
    of insertion. *)
Lemma insert_desc_oldest (r : Lesson.row) (l : list Lesson.row) :
  Forall (fun x => Lesson.created_at r < Lesson.created_at x) l ->
  insert_desc r l = (l ++ [r])%list.
Proof.
  induction 1 as [|x l Hx Hl IH]; simpl; [reflexivity|].
  destruct (Z.leb_spec (Lesson.created_at x) (Lesson.created_at r)); [lia|].
  now rewrite IH.
Qed.

Lemma order_by_created_at_desc_advancing_clock (l : list Lesson.row) :
  StronglySorted (fun a b => Lesson.created_at a < Lesson.created_at b) l ->
  order_by_created_at_desc l = rev l.
Proof.
  induction 1 as [|r l Hl IH Hr]; simpl; [reflexivity|].
  rewrite IH. apply insert_desc_oldest, Forall_rev, Hr.
Qed.

Lemma to_dict_sorted (l : list Lesson.row) :
  StronglySorted newer_first l ->
  StronglySorted dict_newer_first
    (map (fun lesson => DatabaseManager.to_dict (Lesson.tuple lesson)) l).
Proof.
  induction 1 as [|x l Hl IH Hx]; simpl; constructor; [exact IH|].
  apply Forall_map. eapply Forall_impl; [|exact Hx]. intros a Ha. exact Ha.
Qed.

(** ** save_lesson and get_lessons *)

Section Lessons.
Import DatabaseManager.

(** What a successful [INSERT INTO lessons] leaves. *)
Lemma insert_lesson_ok now (title : string) subject content outline
    (f : database) (t : table Lesson.row) :
  lessons f = Some t ->
  insert_lesson now (Some title) subject content outline f
  = Ok (set_lessons
          (Some {| rows := rows t ++
                           [{| Lesson.id := next_rowid t;
                               Lesson.title := Some title;
                               Lesson.subject := subject;
                               Lesson.content := content;
                               Lesson.outline := outline;
                               Lesson.created_at := now |}];
                   sequence := next_rowid t |}) f,
        next_rowid t).
Proof.
  intros Ht. unfold insert_lesson. rewrite Ht. reflexivity.
Qed.

Lemma get_lessons_present (f : database) (t : table Lesson.row) :
  lessons f = Some t ->
  get_lessons f
  = (Ok (map (fun lesson => to_dict (Lesson.tuple lesson))
             (order_by_created_at_desc (rows t))), f).
Proof.
  intros Ht. rewrite get_lessons_eq. unfold select_lessons. now rewrite Ht.
Qed.

Lemma In_get_lessons (t : table Lesson.row) (l : dict) :
  In l (map (fun lesson => to_dict (Lesson.tuple lesson))
            (order_by_created_at_desc (rows t)))
  <-> exists r, In r (rows t) /\ l = to_dict (Lesson.tuple r).
Proof.
  rewrite in_map_iff. split.
  - intros (r & Heq & Hin). exists r. split; [|now symmetry].
    eapply Permutation_in; [apply order_by_created_at_desc_perm|exact Hin].
  - intros (r & Hin & Heq). exists r. split; [now symmetry|].
    eapply Permutation_in;
      [apply Permutation_sym, order_by_created_at_desc_perm|exact Hin].
Qed.

End Lessons.

(** C2. On a store whose lessons table exists, [save_lesson] of a title that
    is not [None] returns an id, and [get_lessons] then returns a list holding
    a lesson with that id and exactly the title, subject, content and outline
    that were saved; it is the only lesson of the list with that id. *)
Theorem save_lesson_then_get_lessons
    (now : Z) (title subject content outline : text) (f : database) :
  lessons f <> None ->
  title <> None ->
  exists (i : Z) (f' : database) (ls : list DatabaseManager.dict),
    DatabaseManager.save_lesson now title subject content outline f = (Ok i, f') /\
    DatabaseManager.get_lessons f' = (Ok ls, f') /\
    exists l,
      In l ls /\
      DatabaseManager.id l = i /\
      DatabaseManager.title l = title /\
      DatabaseManager.subject l = subject /\
      DatabaseManager.content l = content /\
      DatabaseManager.outline l = outline /\
      forall l', In l' ls -> DatabaseManager.id l' = i -> l' = l.
Proof.
  intros Hf Htitle.
  destruct (lessons f) as [t|] eqn:Ht; [clear Hf|congruence].
  destruct title as [title|]; [clear Htitle|congruence].
  rewrite save_lesson_eq, (insert_lesson_ok _ _ _ _ _ _ _ Ht).
  eexists _, _, _. split; [reflexivity|].
  split; [apply get_lessons_present; reflexivity|].
  eexists. split.
  { apply In_get_lessons. eexists. split; [|reflexivity].
    cbn [rows]. apply in_or_app. right. left. reflexivity. }
  do 5 (split; [reflexivity|]).
  intros l' Hin Hid. apply In_get_lessons in Hin.
  destruct Hin as (r & Hr & ->). cbn [rows] in Hr.
  apply in_app_or in Hr. destruct Hr as [Hold|[<-|[]]]; [|reflexivity].
  apply next_rowid_fresh in Hold. cbn in Hid.
  change (rowid r) with (Lesson.id r) in Hold. lia.
Qed.

Lemma save_lesson_then_get_lessons_witness :
  let f := snd (DatabaseManager.init_database empty_database) in
  exists (i : Z) (f' : database) (ls : list DatabaseManager.dict),
    DatabaseManager.save_lesson 1700000000 (Some "Bài học về Pythagoras")
      (Some "Toán") (Some "Nội dung") (Some "[]") f = (Ok i, f') /\
    DatabaseManager.get_lessons f' = (Ok ls, f') /\
    exists l,
      In l ls /\
      DatabaseManager.id l = i /\
      DatabaseManager.title l = Some "Bài học về Pythagoras" /\
      DatabaseManager.subject l = Some "Toán" /\
      DatabaseManager.content l = Some "Nội dung" /\
      DatabaseManager.outline l = Some "[]" /\
      forall l', In l' ls -> DatabaseManager.id l' = i -> l' = l.
Proof.
  apply (save_lesson_then_get_lessons 1700000000 (Some "Bài học về Pythagoras")
           (Some "Toán") (Some "Nội dung") (Some "[]")
           (snd (DatabaseManager.init_database empty_database)));
    simpl; discriminate.
Defined.

(** ** Frame: what a call leaves in place *)

Section Frame.
Import DatabaseManager LoginPage.

Lemma kept_refl {R : Type} (t : option (table R)) : kept t t.
Proof. exists []. now rewrite app_nil_r. Qed.

Lemma kept_trans {R : Type} (a b c : option (table R)) :
  kept a b -> kept b c -> kept a c.
Proof.
  intros [x Hx] [y Hy]. exists (x ++ y)%list.
  now rewrite Hy, Hx, app_assoc.
Qed.

Lemma kept_create {R : Type} (t : option (table R)) :
  kept t (create_if_not_exists t).
Proof. destruct t; [apply kept_refl|now exists []]. Qed.

Lemma kept_append {R : Type} `{Row R} (mk : Z -> R) (t : table R) :
  kept (Some t) (Some (fst (append mk t))).
Proof. eexists. reflexivity. Qed.

Lemma insert_only_refl (f : database) : insert_only f f.
Proof. repeat split; apply kept_refl. Qed.

Lemma insert_only_trans (a b c : database) :
  insert_only a b -> insert_only b c -> insert_only a c.
Proof.
  intros (H1 & H2 & H3 & H4) (K1 & K2 & K3 & K4).
  repeat split; eapply kept_trans; eassumption.
Qed.

Lemma init_database_insert_only (f : database) :
  insert_only f (snd (init_database f)).
Proof.
  rewrite init_database_eq. repeat split; cbn;
    first [apply kept_create | apply kept_refl].
Qed.

Lemma save_lesson_insert_only now title subject content outline f :
  insert_only f (snd (save_lesson now title subject content outline f)).
Proof.
  rewrite save_lesson_eq. unfold insert_lesson.
  destruct (lessons f) as [t|] eqn:Ht; [|apply insert_only_refl].
  destruct title; [|apply insert_only_refl].
  repeat split; cbn; try apply kept_refl.
  rewrite Ht. eexists. reflexivity.
Qed.

Lemma save_progress_insert_only now name lesson_id score status time f :
  insert_only f (snd (save_progress now name lesson_id score status time f)).
Proof.
  rewrite save_progress_eq. unfold insert_progress.
  destruct (student_progress f) as [t|] eqn:Ht; [|apply insert_only_refl].
  destruct (negb _); [apply insert_only_refl|].
  cbn. repeat split; cbn; try apply kept_refl.
  rewrite Ht. eexists. reflexivity.
Qed.

Lemma register_insert_only (username password : string) (f : database) :
  insert_only f (snd (register username password f)).
Proof.
  rewrite register_eq. unfold insert_user.
  assert (Hc : insert_only f (create_users f))
    by (repeat split; cbn; first [apply kept_create | apply kept_refl]).
  destruct (users (create_users f)) as [t|] eqn:Ht; [|exact Hc].
  destruct (existsb _ (rows t)); [exact Hc|].
  eapply insert_only_trans; [exact Hc|].
  repeat split; cbn; try apply kept_refl.
  cbn in Ht. rewrite Ht. eexists. reflexivity.
Qed.

Lemma step_insert_only (c : call) (f : database) : insert_only f (step c f).
Proof.
  destruct c; cbn [step].
  - apply init_database_insert_only.
  - apply save_lesson_insert_only.
  - apply save_progress_insert_only.
  - apply register_insert_only.
Qed.

Lemma run_insert_only (calls : list call) (f : database) :
  insert_only f (run calls f).
Proof.
  revert f. induction calls as [|c calls IH]; intros f; cbn.
  - apply insert_only_refl.
  - eapply insert_only_trans; [apply step_insert_only|apply IH].
Qed.

(** No call removes a table. *)
Lemma step_lessons_present (c : call) (f : database) :
  lessons f <> None -> lessons (step c f) <> None.
Proof.
  intros Hf. destruct (lessons f) as [t|] eqn:Ht; [clear Hf|congruence].
  destruct c as [|now ttl sbj cnt otl| |]; cbn [step].
  - rewrite init_database_eq. cbn. rewrite Ht. discriminate.
  - rewrite save_lesson_eq. unfold insert_lesson. rewrite Ht.
    destruct ttl; cbn; [discriminate|now rewrite Ht].
  - rewrite save_progress_eq. unfold insert_progress.
    destruct (student_progress f); [destruct (negb _)|]; cbn; now rewrite Ht.
  - rewrite register_eq. unfold insert_user.
    destruct (users (create_users f)); cbn; [|now rewrite Ht].
    destruct (existsb _ _); cbn; now rewrite Ht.
Qed.

Lemma run_lessons_present (calls : list call) (f : database) :
  lessons f <> None -> lessons (run calls f) <> None.
Proof.
  revert f. induction calls as [|c calls IH]; intros f Hf; cbn; [exact Hf|].
  apply IH, step_lessons_present, Hf.
Qed.

End Frame.

(** C3. After any sequence of store operations, and so after any sequence of
    [save_lesson] insertions, on a store whose lessons table exists,
    [get_lessons] returns the stored lessons in descending order of
    [created_at]: the list answers, entry by entry and with all six fields
    (id, title, subject, content, outline, created_at), to a rearrangement of
    the rows of the lessons table in which no row comes before a more
    recently created one. *)
Theorem get_lessons_newest_first (calls : list call) (f : database) :
  lessons f <> None ->
  exists (ls : list DatabaseManager.dict) (rs : list Lesson.row),
    DatabaseManager.get_lessons (run calls f) = (Ok ls, run calls f) /\
    Permutation rs (rows_of (lessons (run calls f))) /\
    StronglySorted newer_first rs /\
    Forall2 (fun l r =>
               DatabaseManager.id l = Lesson.id r /\
               DatabaseManager.title l = Lesson.title r /\
               DatabaseManager.subject l = Lesson.subject r /\
               DatabaseManager.content l = Lesson.content r /\
               DatabaseManager.outline l = Lesson.outline r /\
               DatabaseManager.created_at l = Lesson.created_at r) ls rs /\
    StronglySorted dict_newer_first ls.
Proof.
  intros Hf. apply (run_lessons_present calls) in Hf.
  destruct (lessons (run calls f)) as [t|] eqn:Ht; [clear Hf|congruence].
  exists (map (fun lesson => DatabaseManager.to_dict (Lesson.tuple lesson))
              (order_by_created_at_desc (rows t))),
         (order_by_created_at_desc (rows t)).
  split; [apply get_lessons_present, Ht|].
  split; [apply order_by_created_at_desc_perm|].
  split; [apply order_by_created_at_desc_sorted|].
  split.
  - induction (order_by_created_at_desc (rows t)) as [|r rs IH]; cbn;
      constructor; [repeat split|exact IH].
  - apply to_dict_sorted, order_by_created_at_desc_sorted.
Qed.

Lemma get_lessons_newest_first_witness :
  let f := snd (DatabaseManager.init_database empty_database) in
  let calls := [SaveLesson 100 (Some "A") None None None;
                SaveLesson 300 (Some "B") None None None;
                SaveLesson 200 (Some "C") None None None] in
  lessons f <> None /\
  exists (ls : list DatabaseManager.dict) (rs : list Lesson.row),
    DatabaseManager.get_lessons (run calls f) = (Ok ls, run calls f) /\
    Permutation rs (rows_of (lessons (run calls f))) /\
    StronglySorted newer_first rs /\
    Forall2 (fun l r =>
               DatabaseManager.id l = Lesson.id r /\
               DatabaseManager.title l = Lesson.title r /\
               DatabaseManager.subject l = Lesson.subject r /\
               DatabaseManager.content l = Lesson.content r /\
               DatabaseManager.outline l = Lesson.outline r /\
               DatabaseManager.created_at l = Lesson.created_at r) ls rs /\
    StronglySorted dict_newer_first ls.
Proof.
  intros f calls.
  assert (Hf : lessons f <> None) by (simpl; discriminate).
  split; [exact Hf|].
  exact (get_lessons_newest_first calls f Hf).
Defined.

(** The three saves of the witness come back newest first: B, C, A. *)
Example get_lessons_three_saves :
  let f := snd (DatabaseManager.init_database empty_database) in
  let calls := [SaveLesson 100 (Some "A") None None None;
                SaveLesson 300 (Some "B") None None None;
                SaveLesson 200 (Some "C") None None None] in
  fst (DatabaseManager.get_lessons (run calls f))
  = Ok [ {| DatabaseManager.id := 2; DatabaseManager.title := Some "B";
            DatabaseManager.subject := None; DatabaseManager.content := None;
            DatabaseManager.outline := None; DatabaseManager.created_at := 300 |};
         {| DatabaseManager.id := 3; DatabaseManager.title := Some "C";
            DatabaseManager.subject := None; DatabaseManager.content := None;
            DatabaseManager.outline := None; DatabaseManager.created_at := 200 |};
         {| DatabaseManager.id := 1; DatabaseManager.title := Some "A";
            DatabaseManager.subject := None; DatabaseManager.content := None;
            DatabaseManager.outline := None; DatabaseManager.created_at := 100 |} ].
Proof. reflexivity. Qed.

(** C9. No store operation updates or deletes a row: after any sequence of
    [init_database], [save_lesson], [save_progress] and registrations, every
    table still begins with the rows it had, unchanged (ids and [created_at]
    included) and in the same order; and the two reading operations leave the
    file as it was. *)
Theorem store_operations_insert_only (calls : list call) (f : database) :
  insert_only f (run calls f) /\
  snd (DatabaseManager.get_lessons f) = f /\
  (forall username password,
     snd (LoginPage.authenticate username password f) = f).
Proof.
  split; [apply run_insert_only|]. split.
  - rewrite get_lessons_eq. destruct (select_lessons f); reflexivity.
  - intros u p. rewrite authenticate_eq.
    destruct (select_users (Some u) (Some p) f); reflexivity.
Qed.

(** ** save_progress *)

(** With the pragma on, the same [INSERT] would be refused for a lesson id
    that no row of lessons carries. *)
Lemma insert_progress_foreign_keys_on now name (lesson_id : Z) score status time
    (f : database) (t : table Progress.row) :
  student_progress f = Some t ->
  fits_int64 (Some lesson_id) && fits_int64 score && fits_int64 time = true ->
  references_lesson (Some lesson_id) f = false ->
  insert_progress true now name (Some lesson_id) score status time f
  = Raise IntegrityError.
Proof.
  intros Ht Hfit Href. unfold insert_progress. rewrite Ht, Hfit, Href.
  reflexivity.
Qed.

(** An integer outside the signed 64-bit range is not bound: the call raises
    [OverflowError] and the file is as it was. *)
Lemma save_progress_overflow now name lesson_id score status time
    (f : database) (t : table Progress.row) :
  student_progress f = Some t ->
  fits_int64 lesson_id && fits_int64 score && fits_int64 time = false ->
  DatabaseManager.save_progress now name lesson_id score status time f
  = (Raise OverflowError, f).
Proof.
  intros Ht Hfit. rewrite save_progress_eq. unfold insert_progress.
  rewrite Ht, Hfit. reflexivity.
Qed.

Example save_progress_lesson_id_too_large :
  let f := snd (DatabaseManager.init_database empty_database) in
  DatabaseManager.save_progress 1700000000 (Some "An") (Some (2 ^ 63)) (Some 8)
    (Some "completed") (Some 30) f
  = (Raise OverflowError, f).
Proof. reflexivity. Qed.



(** ** init_database *)

Lemma create_if_not_exists_idem {R : Type} (t : option (table R)) :
  create_if_not_exists (create_if_not_exists t) = create_if_not_exists t.
Proof. destruct t; reflexivity. Qed.

Lemma create_if_not_exists_present {R : Type} (t : option (table R)) :
  create_if_not_exists t <> None.
Proof. destruct t; discriminate. Qed.

Lemma rows_of_create {R : Type} (t : option (table R)) :
  rows_of (create_if_not_exists t) = rows_of t.
Proof. destruct t; reflexivity. Qed.

(** C4, as stated, fails: on a new file [init_database] creates three tables
    and no accounts table. *)
Lemma init_database_no_users_table :
  let f := snd (DatabaseManager.init_database empty_database) in
  ~ (lessons f <> None /\ student_progress f <> None /\
     generated_images f <> None /\ users f <> None).
Proof.
  intros f (_ & _ & _ & Husers). apply Husers. reflexivity.
Qed.

(** C4, amended. [init_database] never fails; after it the three entity
    tables exist, with the rows they had; a second call changes nothing; it
    leaves the accounts table as it found it, absent if it was absent. The
    accounts table is created by the registration handler, which leaves it
    present whatever the outcome. *)
Theorem init_database_idempotent_three_tables (f : database) :
  let f1 := snd (DatabaseManager.init_database f) in
  fst (DatabaseManager.init_database f) = Ok tt /\
  entity_tables_exist f1 /\
  DatabaseManager.init_database f1 = (Ok tt, f1) /\
  rows_of (lessons f1) = rows_of (lessons f) /\
  rows_of (student_progress f1) = rows_of (student_progress f) /\
  rows_of (generated_images f1) = rows_of (generated_images f) /\
  users f1 = users f /\
  (forall username password,
     users (snd (LoginPage.register username password f1)) <> None).
Proof.
  cbv zeta. rewrite !init_database_eq. cbn [fst snd].
  split; [reflexivity|]. split.
  { repeat split; cbn; apply create_if_not_exists_present. }
  split.
  { unfold create_generated_images, create_student_progress, create_lessons,
      set_generated_images, set_student_progress, set_lessons. cbn.
    now rewrite !create_if_not_exists_idem. }
  do 3 (split; [cbn; apply rows_of_create|]).
  split; [reflexivity|].
  intros u p. rewrite register_eq. unfold insert_user.
  set (g := create_generated_images _).
  assert (Hg : users (create_users g) <> None)
    by (cbn; apply create_if_not_exists_present).
  destruct (users (create_users g)) as [t|] eqn:Ht; [clear Hg|congruence].
  destruct (existsb _ (rows t)); cbn; [|discriminate].
  cbn in Ht. rewrite Ht. discriminate.
Qed.

(** On a store where nobody has registered yet the login query finds no
    accounts table. *)
Example authenticate_before_any_registration :
  LoginPage.authenticate "alice" "p1"
    (snd (DatabaseManager.init_database empty_database))
  = (Raise OperationalError,
     snd (DatabaseManager.init_database empty_database)).
Proof. reflexivity. Qed.

(** ** Registration and login *)

Section Accounts.
Import LoginPage.

Lemma text_eq_true (a : text) (s : string) :
  text_eq a (Some s) = true <-> a = Some s.
Proof.
  destruct a as [x|]; simpl.
  - rewrite String.eqb_eq. split; congruence.
  - split; discriminate.
Qed.

(** The UNIQUE check finds exactly the registered usernames. *)
Lemma unique_check_registered (username : string) (f : database) :
  existsb (fun r => text_eq (User.username r) (Some username))
          (rows_of (users f)) = true
  <-> registered username f.
Proof.
  rewrite existsb_exists. unfold registered.
  split; intros (r & Hin & Hr); exists r; split; trivial;
    now apply text_eq_true.
Qed.

Lemma create_users_present (f : database) (t : table User.row) :
  users f = Some t -> create_users f = f.
Proof.
  intros Ht. destruct f as [l s g u]. cbn in *. subst u. reflexivity.
Qed.

Lemma rows_of_create_users (f : database) :
  rows_of (users (create_users f)) = rows_of (users f).
Proof. cbn. apply rows_of_create. Qed.

(** A refused registration: the file is as it was. *)
Lemma register_taken (username password : string) (f : database) :
  registered username f ->
  register username password f = (Ok DuplicateUsername, f).
Proof.
  intros Hreg. pose proof Hreg as (r & Hin & _).
  destruct (users f) as [t|] eqn:Ht; [|destruct Hin].
  apply unique_check_registered in Hreg. rewrite Ht in Hreg. cbn in Hreg.
  rewrite register_eq, (create_users_present f t Ht).
  unfold insert_user. rewrite Ht, Hreg. reflexivity.
Qed.

(** An accepted registration: one row is added after the others. *)
Lemma register_fresh (username password : string) (f : database) :
  ~ registered username f ->
  exists t,
    users (create_users f) = Some t /\
    rows t = rows_of (users f) /\
    register username password f
    = (Ok account_created,
       set_users
         (Some {| rows := rows t ++
                          [{| User.id := next_rowid t;
                              User.username := Some username;
                              User.password := Some password |}];
                  sequence := next_rowid t |}) (create_users f)).
Proof.
  intros Hfresh.
  assert (Hcheck : existsb (fun r => text_eq (User.username r) (Some username))
                           (rows_of (users (create_users f))) = false).
  { rewrite rows_of_create_users.
    destruct (existsb _ _) eqn:E; [|reflexivity].
    apply unique_check_registered in E. contradiction. }
  pose proof (rows_of_create_users f) as Hrows.
  destruct (users (create_users f)) as [t|] eqn:Ht.
  - exists t. split; [reflexivity|]. split; [exact Hrows|].
    rewrite register_eq. unfold insert_user. rewrite Ht.
    cbn in Hcheck. rewrite Hcheck. reflexivity.
  - cbn in Ht. now apply create_if_not_exists_present in Ht.
Qed.

Lemma registered_dec (username : string) (f : database) :
  registered username f \/ ~ registered username f.
Proof.
  destruct (existsb (fun r => text_eq (User.username r) (Some username))
                    (rows_of (users f))) eqn:E.
  - left. now apply unique_check_registered.
  - right. intros H. apply unique_check_registered in H. congruence.
Qed.

(** Whatever its outcome, a registration leaves the username registered. *)
Lemma register_registers (username password : string) (f : database) :
  registered username (snd (register username password f)).
Proof.
  destruct (registered_dec username f) as [Hreg|Hfresh].
  - now rewrite register_taken.
  - destruct (register_fresh username password f Hfresh) as (t & _ & _ & ->).
    cbn. eexists. split; [apply in_or_app; right; left; reflexivity|].
    reflexivity.
Qed.

End Accounts.

(** C5. Registering a username that some account already holds shows the
    duplicate-username error and leaves the file exactly as it was;
    registering a username no account holds succeeds and adds one account,
    after the others and under a fresh id; and whatever the store, registering
    "alice" a second time is refused as a duplicate and changes nothing. *)
Theorem register_duplicate_username (username password : string) (f : database) :
  (registered username f ->
   LoginPage.register username password f = (Ok LoginPage.DuplicateUsername, f)) /\
  (~ registered username f ->
   exists (f' : database) (i : Z),
     LoginPage.register username password f = (Ok LoginPage.account_created, f') /\
     rows_of (users f')
     = (rows_of (users f) ++
        [{| User.id := i; User.username := Some username;
            User.password := Some password |}])%list /\
     (forall r, In r (rows_of (users f)) -> User.id r < i)) /\
  (forall p1 p2 : string,
     let f1 := snd (LoginPage.register "alice" p1 f) in
     LoginPage.register "alice" p2 f1 = (Ok LoginPage.DuplicateUsername, f1)).
Proof.
  split; [apply register_taken|]. split.
  - intros Hfresh.
    destruct (register_fresh username password f Hfresh) as (t & Ht & Hrows & Heq).
    eexists _, (next_rowid t). split; [exact Heq|]. split.
    + cbn. now rewrite Hrows.
    + intros r Hin. rewrite <- Hrows in Hin.
      exact (next_rowid_fresh t r Hin).
  - intros p1 p2 f1. apply register_taken, register_registers.
Qed.

Lemma register_duplicate_username_witness :
  let f := snd (LoginPage.register "alice" "p1" empty_database) in
  registered "alice" f /\
  ~ registered "bob" f /\
  LoginPage.register "alice" "p2" f = (Ok LoginPage.DuplicateUsername, f) /\
  exists (f' : database) (i : Z),
    LoginPage.register "bob" "p3" f = (Ok LoginPage.account_created, f') /\
    rows_of (users f')
    = (rows_of (users f) ++
       [{| User.id := i; User.username := Some "bob";
           User.password := Some "p3" |}])%list /\
    (forall r, In r (rows_of (users f)) -> User.id r < i).
Proof.
  intros f.
  assert (Ha : registered "alice" f).
  { eexists. split; [left; reflexivity|reflexivity]. }
  assert (Hb : ~ registered "bob" f).
  { intros (r & [<-|[]] & Hr). discriminate Hr. }
  split; [exact Ha|]. split; [exact Hb|]. split.
  - exact (proj1 (register_duplicate_username "alice" "p2" f) Ha).
  - exact (proj1 (proj2 (register_duplicate_username "bob" "p3" f)) Hb).
Defined.

Section Login.
Import LoginPage.

(** The query over a table to which one account was just added, no earlier
    row holding its username. *)
Lemma select_after_insert (username password w : string) (l : list User.row)
    (i : Z) :
  existsb (fun r => text_eq (User.username r) (Some username)) l = false ->
  filter (fun r => text_eq (User.username r) (Some username)
                   && text_eq (User.password r) (Some w))
         (l ++ [{| User.id := i; User.username := Some username;
                   User.password := Some password |}])
  = if String.eqb password w
    then [{| User.id := i; User.username := Some username;
             User.password := Some password |}]
    else [].
Proof.
  intros Hnone. rewrite filter_app.
  replace (filter _ l) with (@nil User.row).
  - cbn. rewrite String.eqb_refl. cbn. destruct (String.eqb password w); reflexivity.
  - symmetry. induction l as [|r l IH]; [reflexivity|].
    cbn in Hnone |- *. apply orb_false_elim in Hnone as [Hr Hl].
    rewrite Hr. cbn. now apply IH.
Qed.

(** What an accepted registration left behind. *)
Lemma register_created (username password : string) (f f' : database) :
  register username password f = (Ok account_created, f') ->
  exists t,
    existsb (fun r => text_eq (User.username r) (Some username)) (rows t)
    = false /\
    f' = set_users
           (Some {| rows := rows t ++
                            [{| User.id := next_rowid t;
                                User.username := Some username;
                                User.password := Some password |}];
                    sequence := next_rowid t |}) (create_users f).
Proof.
  rewrite register_eq. unfold insert_user.
  destruct (users (create_users f)) as [t|]; [|discriminate].
  destruct (existsb _ (rows t)) eqn:E; [discriminate|].
  cbn. intros [= <-]. exists t. split; [exact E|reflexivity].
Qed.

End Login.

(** C6. After a successful registration of [(username, password)], the login
    query with the same pair returns the stored account, and the handler logs
    the user in; with any other password the query returns no account, and
    the handler reports wrong credentials and leaves the session as it was. *)
Theorem authenticate_after_register
    (username password : string) (f f' : database) :
  LoginPage.register username password f = (Ok LoginPage.account_created, f') ->
  (exists user : User.row,
     LoginPage.authenticate username password f' = (Ok (Some user), f') /\
     In user (rows_of (users f')) /\
     User.username user = Some username /\
     User.password user = Some password) /\
  (forall w : string, w <> password ->
     LoginPage.authenticate username w f' = (Ok None, f')) /\
  (forall st,
     LoginPage.login username password st f'
     = (Ok ({| LoginPage.logged_in := true;
               LoginPage.username := Some username |},
            LoginPage.welcome username), f')) /\
  (forall (w : string) st, w <> password ->
     LoginPage.login username w st f'
     = (Ok (st, LoginPage.wrong_credentials), f')).
Proof.
  intros Hreg. apply register_created in Hreg as (t & Hnone & ->).
  assert (Hq : forall w,
             LoginPage.authenticate username w
               (set_users
                  (Some {| rows := rows t ++
                                   [{| User.id := next_rowid t;
                                       User.username := Some username;
                                       User.password := Some password |}];
                           sequence := next_rowid t |}) (create_users f))
             = (Ok (if String.eqb password w
                    then Some {| User.id := next_rowid t;
                                 User.username := Some username;
                                 User.password := Some password |}
                    else None),
                set_users
                  (Some {| rows := rows t ++
                                   [{| User.id := next_rowid t;
                                       User.username := Some username;
                                       User.password := Some password |}];
                           sequence := next_rowid t |}) (create_users f))).
  { intros w. rewrite authenticate_eq. unfold select_users. cbn [users set_users rows].
    rewrite (select_after_insert _ _ _ _ _ Hnone).
    destruct (String.eqb password w); reflexivity. }
  assert (Hwrong : forall w, w <> password -> String.eqb password w = false).
  { intros w Hw. apply String.eqb_neq. congruence. }
  repeat split.
  - eexists. split; [rewrite Hq, String.eqb_refl; reflexivity|].
    split; [|split; reflexivity].
    cbn. apply in_or_app. right. left. reflexivity.
  - intros w Hw. now rewrite Hq, (Hwrong w Hw).
  - intros st. unfold LoginPage.login. now rewrite Hq, String.eqb_refl.
  - intros w st Hw. unfold LoginPage.login. now rewrite Hq, (Hwrong w Hw).
Qed.

Lemma authenticate_after_register_witness :
  let f' := snd (LoginPage.register "alice" "p1" empty_database) in
  LoginPage.register "alice" "p1" empty_database
  = (Ok LoginPage.account_created, f') /\
  (exists user : User.row,
     LoginPage.authenticate "alice" "p1" f' = (Ok (Some user), f') /\
     In user (rows_of (users f')) /\
     User.username user = Some "alice" /\
     User.password user = Some "p1") /\
  LoginPage.authenticate "alice" "wrong" f' = (Ok None, f').
Proof.
  intros f'.
  assert (Hreg : LoginPage.register "alice" "p1" empty_database
                 = (Ok LoginPage.account_created, f')) by reflexivity.
  split; [exact Hreg|].
  pose proof (authenticate_after_register "alice" "p1" empty_database f' Hreg)
    as (Hok & Hbad & _).
  split; [exact Hok|].
  apply Hbad. discriminate.
Defined.

(** ** Strings *)

Section Strings.

Lemma string_ind3 (P : string -> Prop) :
  P "" ->
  (forall a, P (String a "")) ->
  (forall a b, P (String a (String b ""))) ->
  (forall a b c s, P s -> P (String a (String b (String c s)))) ->
  forall s, P s.
Proof.
  intros H0 H1 H2 H3. fix IH 1. intros [|a [|b [|c s]]].
  - exact H0.
  - apply H1.
  - apply H2.
  - apply H3, IH.
Qed.

Lemma length_append (x y : string) :
  String.length (x ++ y) = (String.length x + String.length y)%nat.
Proof. induction x as [|a x IH]; simpl; [reflexivity|now rewrite IH]. Qed.

Lemma append_inv_head (a x y : string) : a ++ x = a ++ y -> x = y.
Proof.
  induction a as [|c a IH]; simpl; [trivial|].
  intros [= H]. now apply IH.
Qed.

Lemma append_inv_tail (b x y : string) : x ++ b = y ++ b -> x = y.
Proof.
  revert y. induction x as [|c x IH]; intros [|d y] H; simpl in H.
  - reflexivity.
  - apply (f_equal String.length) in H. simpl in H.
    rewrite length_append in H. lia.
  - apply (f_equal String.length) in H. simpl in H.
    rewrite length_append in H. lia.
  - injection H as -> H. f_equal. now apply IH.
Qed.

Lemma list_ascii_of_string_append (x y : string) :
  list_ascii_of_string (x ++ y)
  = (list_ascii_of_string x ++ list_ascii_of_string y)%list.
Proof. induction x as [|a x IH]; simpl; [reflexivity|now rewrite IH]. Qed.

End Strings.

(** ** base64 and ImageGenerator *)

Section Base64Facts.
Import Base64.

Lemma index_digit (s : sextet) : index (digit s) = Some s.
Proof.
  destruct s as [[[[[[] []] []] []] []] []]; reflexivity.
Qed.

Lemma digit_not_pad (s : sextet) : Ascii.eqb (digit s) pad = false.
Proof.
  destruct s as [[[[[[] []] []] []] []] []]; reflexivity.
Qed.

Lemma digit_in_alphabet (s : sextet) :
  In (digit s) (list_ascii_of_string alphabet).
Proof.
  assert (H : existsb (Ascii.eqb (digit s)) (list_ascii_of_string alphabet)
              = true)
    by (destruct s as [[[[[[] []] []] []] []] []]; reflexivity).
  apply existsb_exists in H as (c & Hin & Hc).
  apply Ascii.eqb_eq in Hc. now subst c.
Qed.

(** Decoding gives back what was encoded. *)
Lemma b64decode_b64encode (s : string) : b64decode (b64encode s) = Some s.
Proof.
  induction s as [|a|a b|a b c s IH] using string_ind3.
  - reflexivity.
  - destruct a as [a0 a1 a2 a3 a4 a5 a6 a7].
    cbn [b64encode encode1 b64decode]. rewrite !Ascii.eqb_refl.
    unfold decode1. now rewrite !index_digit.
  - destruct a as [a0 a1 a2 a3 a4 a5 a6 a7], b as [b0 b1 b2 b3 b4 b5 b6 b7].
    cbn [b64encode encode2 b64decode].
    rewrite Ascii.eqb_refl, digit_not_pad.
    unfold decode2. now rewrite !index_digit.
  - destruct a as [a0 a1 a2 a3 a4 a5 a6 a7], b as [b0 b1 b2 b3 b4 b5 b6 b7],
      c as [c0 c1 c2 c3 c4 c5 c6 c7].
    cbn [b64encode encode3 String.append b64decode].
    rewrite digit_not_pad, IH. unfold decode3. now rewrite !index_digit.
Qed.

Lemma b64encode_inj (s1 s2 : string) : b64encode s1 = b64encode s2 -> s1 = s2.
Proof.
  intros H. apply (f_equal b64decode) in H.
  rewrite !b64decode_b64encode in H. congruence.
Qed.

Lemma b64encode_length (s : string) :
  String.length (b64encode s) = (4 * ((String.length s + 2) / 3))%nat.
Proof.
  induction s as [|a|a b|a b c s IH] using string_ind3.
  - reflexivity.
  - destruct a; reflexivity.
  - destruct a, b; reflexivity.
  - destruct a, b, c. cbn [b64encode encode3 String.append String.length].
    rewrite IH.
    replace (S (S (S (String.length s))) + 2)%nat
      with (String.length s + 2 + 1 * 3)%nat by lia.
    rewrite Nat.div_add by lia. lia.
Qed.

Lemma b64encode_alphabet (s : string) (c : ascii) :
  In c (list_ascii_of_string (b64encode s)) ->
  In c (list_ascii_of_string alphabet) \/ c = pad.
Proof.
  induction s as [|a|a b|a b x s IH] using string_ind3.
  - intros [].
  - destruct a. cbn [b64encode encode1 list_ascii_of_string].
    intros [<-|[<-|[<-|[<-|[]]]]]; auto using digit_in_alphabet.
  - destruct a, b. cbn [b64encode encode2 list_ascii_of_string].
    intros [<-|[<-|[<-|[<-|[]]]]]; auto using digit_in_alphabet.
  - destruct a, b, x.
    cbn [b64encode encode3 String.append list_ascii_of_string].
    intros [<-|[<-|[<-|[<-|H]]]]; auto using digit_in_alphabet.
Qed.

End Base64Facts.

(** X1. The illustration is a data URI: the fixed prefix followed by base64
    text, four characters for every three bytes of the SVG (rounded up),
    each of them a character of the base64 alphabet or the pad [=]. *)
Theorem generate_illustration_data_uri
    (self : ImageGenerator.t) (prompt topic : string) :
  exists payload : string,
    ImageGenerator.generate_illustration self prompt topic
    = ImageGenerator.data_uri_prefix ++ payload /\
    String.length payload
    = (4 * ((String.length (ImageGenerator.create_placeholder_svg self topic) + 2)
            / 3))%nat /\
    forall c, In c (list_ascii_of_string payload) ->
              In c (list_ascii_of_string Base64.alphabet) \/ c = Base64.pad.
Proof.
  eexists. split; [reflexivity|]. split.
  - apply b64encode_length.
  - apply b64encode_alphabet.
Qed.

(** X2. Nothing of the placeholder is lost in the URI: decoding its payload
    gives back the SVG text, with the topic between the fixed head and
    tail. *)
Theorem generate_illustration_round_trip
    (self : ImageGenerator.t) (prompt topic : string) :
  exists payload : string,
    ImageGenerator.generate_illustration self prompt topic
    = ImageGenerator.data_uri_prefix ++ payload /\
    Base64.b64decode payload
    = Some (ImageGenerator.svg_head ++ topic ++ ImageGenerator.svg_tail).
Proof.
  eexists. split; [reflexivity|]. apply b64decode_b64encode.
Qed.

(** X3. The illustration depends on the topic and on nothing else: two calls
    return the same URI exactly when their topics are equal, whatever the
    prompts. *)
Theorem generate_illustration_injective
    (self1 self2 : ImageGenerator.t) (prompt1 prompt2 topic1 topic2 : string) :
  ImageGenerator.generate_illustration self1 prompt1 topic1
  = ImageGenerator.generate_illustration self2 prompt2 topic2
  <-> topic1 = topic2.
Proof.
  unfold ImageGenerator.generate_illustration,
    ImageGenerator.create_placeholder_svg. split.
  - intros H. apply append_inv_head, b64encode_inj, append_inv_head in H.
    now apply append_inv_tail in H.
  - now intros ->.
Qed.

(** ** More on the store: failures, row ids, listing order *)

Section StoreFacts.
Import DatabaseManager.

(** What a successful [save_lesson] did. *)
Lemma save_lesson_ok_inv now ttl sbj cnt otl (f f' : database) (i : Z) :
  save_lesson now ttl sbj cnt otl f = (Ok i, f') ->
  exists t,
    lessons f = Some t /\ ttl <> None /\ i = next_rowid t /\
    f' = set_lessons
           (Some {| rows := rows t ++
                            [{| Lesson.id := next_rowid t; Lesson.title := ttl;
                                Lesson.subject := sbj; Lesson.content := cnt;
                                Lesson.outline := otl;
                                Lesson.created_at := now |}];
                    sequence := next_rowid t |}) f.
Proof.
  rewrite save_lesson_eq. unfold insert_lesson.
  destruct (lessons f) as [t|]; [|discriminate].
  destruct ttl as [s|]; [|discriminate].
  cbn. intros [= <- <-]. exists t. repeat split. discriminate.
Qed.

Lemma kept_In {R : Type} (a b : option (table R)) (r : R) :
  kept a b -> In r (rows_of a) -> In r (rows_of b).
Proof.
  intros [added ->] Hin. apply in_or_app. now left.
Qed.

Lemma StronglySorted_snoc (l : list Z) (y : Z) :
  StronglySorted Z.lt l -> Forall (fun x => x < y) l ->
  StronglySorted Z.lt (l ++ [y]).
Proof.
  induction 1 as [|x l Hl IH Hx]; intros Hy; simpl.
  - repeat constructor.
  - inversion Hy as [|? ? Hxy Hly]; subst. constructor; [now apply IH|].
    apply Forall_app. split; [exact Hx|]. now repeat constructor.
Qed.

Lemma grows_ids_ascending {R : Type} `{Row R} (a b : option (table R)) :
  grows a b -> ids_ascending a -> ids_ascending b.
Proof.
  induction 1 as [t| |t r Hr|a b c _ IH1 _ IH2]; intros Ha.
  - exact Ha.
  - constructor.
  - unfold ids_ascending in *. cbn [rows_of rows] in *.
    rewrite map_app. cbn [map]. apply StronglySorted_snoc; [exact Ha|].
    apply Forall_map, Forall_forall. intros x Hx. rewrite Hr.
    now apply next_rowid_fresh.
  - apply IH2, IH1, Ha.
Qed.

Lemma grows_create_if_not_exists {R : Type} `{Row R} (t : option (table R)) :
  grows t (create_if_not_exists t).
Proof. destruct t; constructor. Qed.

(** Every call changes every table in one of these ways. *)
Lemma step_grows (c : call) (f : database) :
  grows (lessons f) (lessons (step c f)) /\
  grows (student_progress f) (student_progress (step c f)) /\
  grows (generated_images f) (generated_images (step c f)) /\
  grows (users f) (users (step c f)).
Proof.
  destruct c as [|now ttl sbj cnt otl|now name lid score status time|u p];
    cbn [step].
  - rewrite init_database_eq. cbn.
    repeat split; first [apply grows_create_if_not_exists | apply grows_same].
  - rewrite save_lesson_eq. unfold insert_lesson.
    destruct (lessons f) as [t|] eqn:Ht;
      [|cbn; rewrite ?Ht; repeat split; apply grows_same].
    destruct ttl; cbn; rewrite ?Ht; repeat split;
      try apply grows_same; now apply grows_append.
  - rewrite save_progress_eq. unfold insert_progress.
    destruct (student_progress f) as [t|] eqn:Ht;
      [destruct (negb _)|]; cbn; rewrite ?Ht; repeat split;
      try apply grows_same; now apply grows_append.
  - rewrite register_eq. unfold insert_user.
    destruct (users (create_users f)) as [t|] eqn:Ht;
      [|cbn in Ht; now apply create_if_not_exists_present in Ht].
    assert (Hc : grows (users f) (create_if_not_exists (users f)))
      by apply grows_create_if_not_exists.
    destruct (existsb _ (rows t)); cbn; repeat split;
      try apply grows_same; try exact Hc.
    eapply grows_trans; [exact Hc|]. cbn in Ht. rewrite Ht.
    now apply grows_append.
Qed.

Lemma step_ids_ascending (c : call) (f : database) :
  ids_ascending_db f -> ids_ascending_db (step c f).
Proof.
  intros (H1 & H2 & H3 & H4).
  destruct (step_grows c f) as (G1 & G2 & G3 & G4).
  repeat split; eapply grows_ids_ascending; eassumption.
Qed.

Lemma StronglySorted_lt_NoDup (l : list Z) : StronglySorted Z.lt l -> NoDup l.
Proof.
  induction 1 as [|x l Hl IH Hx]; constructor; [|exact IH].
  intros Hin. rewrite Forall_forall in Hx. specialize (Hx x Hin). lia.
Qed.

(** A row newer than all the others is the first of the listing. *)
Lemma order_by_created_at_desc_newest (l : list Lesson.row) (n : Lesson.row) :
  Forall (fun r => Lesson.created_at r < Lesson.created_at n) l ->
  order_by_created_at_desc (l ++ [n]) = n :: order_by_created_at_desc l.
Proof.
  induction 1 as [|r l Hr Hl IH]; simpl; [reflexivity|].
  rewrite IH. simpl.
  destruct (Z.leb_spec (Lesson.created_at n) (Lesson.created_at r)); [lia|].
  reflexivity.
Qed.

End StoreFacts.

(** *** The methods on a shared file *)

Section SharedFacts.

Lemma shared_same (s : shared) :
  {| contents := contents s; leaked_lock := leaked_lock s || false |} = s.
Proof. destruct s as [f l]. cbn. now rewrite orb_false_r. Qed.

(** On a file nobody holds, the shared method is the method. *)
Lemma with_shared_connection_free {A : Type} (body : exec A) (f : database) :
  fst (with_shared_connection body {| contents := f; leaked_lock := false |})
  = fst (with_connection body f) /\
  contents (snd (with_shared_connection body
                   {| contents := f; leaked_lock := false |}))
  = snd (with_connection body f).
Proof.
  unfold with_shared_connection, with_connection, connect_shared, connect.
  cbn. now destruct (body _).
Qed.

Lemma shared_save_lesson_eq now ttl sbj cnt otl (s : shared) :
  SharedFile.save_lesson now ttl sbj cnt otl s
  = match insert_lesson now ttl sbj cnt otl (contents s) with
    | Raise OperationalError => (Raise OperationalError, s)
    | Raise OverflowError => (Raise OverflowError, s)
    | Ok (f', i) =>
        if leaked_lock s then (Raise OperationalError, s)
        else (Ok i, {| contents := f'; leaked_lock := false |})
    | Raise e =>
        if leaked_lock s then (Raise OperationalError, s)
        else (Raise e, {| contents := contents s; leaked_lock := true |})
    end.
Proof.
  unfold SharedFile.save_lesson, DatabaseManager.save_lesson_steps,
    with_shared_connection, bind, execute_insert.
  destruct s as [f l]. cbn.
  destruct (insert_lesson now ttl sbj cnt otl f) as [[f' i]|[]];
    destruct l; cbn; reflexivity.
Qed.

Lemma shared_save_progress_eq now name lid score status time (s : shared) :
  SharedFile.save_progress now name lid score status time s
  = match insert_progress false now name lid score status time (contents s) with
    | Raise OperationalError => (Raise OperationalError, s)
    | Raise OverflowError => (Raise OverflowError, s)
    | Ok (f', _) =>
        if leaked_lock s then (Raise OperationalError, s)
        else (Ok tt, {| contents := f'; leaked_lock := false |})
    | Raise e =>
        if leaked_lock s then (Raise OperationalError, s)
        else (Raise e, {| contents := contents s; leaked_lock := true |})
    end.
Proof.
  unfold SharedFile.save_progress, DatabaseManager.save_progress_steps,
    with_shared_connection, bind, execute_insert.
  destruct s as [f l]. cbn.
  destruct (insert_progress false now name lid score status time f)
    as [[f' i]|[]]; destruct l; cbn; reflexivity.
Qed.

(** Reading goes on under a lock that was left behind. *)
Lemma shared_get_lessons_eq (s : shared) :
  SharedFile.get_lessons s
  = (fst (DatabaseManager.get_lessons (contents s)), s).
Proof.
  unfold SharedFile.get_lessons, DatabaseManager.get_lessons,
    DatabaseManager.get_lessons_steps, with_shared_connection,
    with_connection, bind, execute_select.
  destruct s as [f l]. cbn.
  destruct (select_lessons f); cbn; now rewrite orb_false_r.
Qed.

End SharedFacts.

(** X4. When [save_lesson] fails, and what a failure leaves. On a shared file
    it raises [OperationalError] when the lessons table is missing, and also
    when the table is there but a connection left open holds the write lock;
    with the table there and the lock free it raises [IntegrityError] for a
    title that is [None], and that refused call leaves its own connection
    open with the lock; otherwise it succeeds as on a file nobody holds. A
    call that raises changes nothing in the contents of the file. *)
Theorem save_lesson_failures
    (now : Z) (title subject content outline : text) (s : shared) :
  (lessons (contents s) = None ->
   SharedFile.save_lesson now title subject content outline s
   = (Raise OperationalError, s)) /\
  (lessons (contents s) <> None -> leaked_lock s = true ->
   SharedFile.save_lesson now title subject content outline s
   = (Raise OperationalError, s)) /\
  (lessons (contents s) <> None -> leaked_lock s = false -> title = None ->
   SharedFile.save_lesson now title subject content outline s
   = (Raise IntegrityError,
      {| contents := contents s; leaked_lock := true |})) /\
  (lessons (contents s) <> None -> leaked_lock s = false -> title <> None ->
   exists (i : Z) (f' : database),
     DatabaseManager.save_lesson now title subject content outline (contents s)
     = (Ok i, f') /\
     SharedFile.save_lesson now title subject content outline s
     = (Ok i, {| contents := f'; leaked_lock := false |})) /\
  (forall e s',
     SharedFile.save_lesson now title subject content outline s
     = (Raise e, s') ->
     contents s' = contents s).
Proof.
  rewrite shared_save_lesson_eq, save_lesson_eq. unfold insert_lesson.
  destruct (lessons (contents s)) as [t|].
  - destruct title as [ttl|]; cbn.
    + split; [discriminate|]. split; [now intros _ ->|].
      split; [discriminate|]. split.
      * intros _ -> _. eexists _, _. split; reflexivity.
      * intros e s'. destruct (leaked_lock s); [|discriminate].
        now intros [= _ <-].
    + split; [discriminate|]. split; [now intros _ ->|].
      split; [now intros _ -> _|]. split; [congruence|].
      intros e s'. destruct (leaked_lock s); now intros [= _ <-].
  - split; [reflexivity|]. split; [congruence|]. split; [congruence|].
    split; [congruence|]. now intros e s' [= _ <-].
Qed.

(** A refused save stands in the way of the next one, until the connection
    it left open is reclaimed. *)
Example save_lesson_after_refused_save :
  let s0 := {| contents := snd (DatabaseManager.init_database empty_database);
               leaked_lock := false |} in
  let s1 := snd (SharedFile.save_lesson 10 None None None None s0) in
  fst (SharedFile.save_lesson 10 None None None None s0) = Raise IntegrityError /\
  fst (SharedFile.save_lesson 11 (Some "A") None None None s1)
  = Raise OperationalError /\
  fst (SharedFile.get_lessons s1) = Ok [] /\
  fst (SharedFile.save_lesson 11 (Some "A") None None None (collect s1)) = Ok 1.
Proof. repeat split. Qed.

(** X5. Lesson ids are never reused: an id returned by [save_lesson] is
    smaller than the id any later [save_lesson] returns, whatever store
    operations run in between. *)
Theorem save_lesson_ids_increase
    (now1 now2 : Z) (title1 subject1 content1 outline1 : text)
    (title2 subject2 content2 outline2 : text)
    (calls : list call) (f f1 f2 : database) (i j : Z) :
  DatabaseManager.save_lesson now1 title1 subject1 content1 outline1 f
  = (Ok i, f1) ->
  DatabaseManager.save_lesson now2 title2 subject2 content2 outline2
    (run calls f1) = (Ok j, f2) ->
  i < j.
Proof.
  intros H1 H2.
  apply save_lesson_ok_inv in H1 as (t1 & _ & _ & -> & ->).
  apply save_lesson_ok_inv in H2 as (t2 & Ht2 & _ & -> & _).
  set (r := {| Lesson.id := next_rowid t1; Lesson.title := title1;
               Lesson.subject := subject1; Lesson.content := content1;
               Lesson.outline := outline1; Lesson.created_at := now1 |}) in *.
  assert (Hin : In r (rows t2)).
  { change (rows t2) with (rows_of (Some t2)). rewrite <- Ht2.
    eapply kept_In; [apply (run_insert_only calls)|].
    cbn. apply in_or_app. right. left. reflexivity. }
  apply next_rowid_fresh in Hin. exact Hin.
Qed.

Lemma save_lesson_ids_increase_witness :
  let f := snd (DatabaseManager.init_database empty_database) in
  let f1 := snd (DatabaseManager.save_lesson 10 (Some "A") None None None f) in
  let calls := [Register "alice" "p1"; SaveLesson 11 (Some "B") None None None] in
  DatabaseManager.save_lesson 10 (Some "A") None None None f = (Ok 1, f1) /\
  DatabaseManager.save_lesson 12 (Some "C") None None None (run calls f1)
  = (Ok 3, snd (DatabaseManager.save_lesson 12 (Some "C") None None None
                  (run calls f1))) /\
  1 < 3.
Proof.
  intros f f1 calls.
  assert (H1 : DatabaseManager.save_lesson 10 (Some "A") None None None f
               = (Ok 1, f1)) by reflexivity.
  assert (H2 : DatabaseManager.save_lesson 12 (Some "C") None None None
                 (run calls f1)
               = (Ok 3, snd (DatabaseManager.save_lesson 12 (Some "C") None
                               None None (run calls f1)))) by reflexivity.
  split; [exact H1|]. split; [exact H2|].
  exact (save_lesson_ids_increase _ _ _ _ _ _ _ _ _ _ _ _ _ _ _ _ H1 H2).
Defined.

(** X6. Row ids stay in increasing order: if in every table the ids increase
    along the rows, they still do after any sequence of store operations, and
    the lessons [get_lessons] then returns carry pairwise distinct ids. *)
Theorem run_keeps_ids_ascending (calls : list call) (f : database) :
  ids_ascending_db f ->
  ids_ascending_db (run calls f) /\
  forall ls, fst (DatabaseManager.get_lessons (run calls f)) = Ok ls ->
             NoDup (map DatabaseManager.id ls).
Proof.
  intros Hf.
  assert (Hrun : ids_ascending_db (run calls f)).
  { revert f Hf. induction calls as [|c calls IH]; intros f Hf; cbn; [exact Hf|].
    apply IH, step_ids_ascending, Hf. }
  split; [exact Hrun|].
  destruct Hrun as (Hl & _). intros ls.
  rewrite get_lessons_eq. unfold select_lessons.
  destruct (lessons (run calls f)) as [t|]; [|discriminate].
  cbn. intros [= <-]. rewrite map_map. cbn.
  apply StronglySorted_lt_NoDup in Hl.
  eapply Permutation_NoDup; [|exact Hl].
  apply Permutation_sym.
  apply (Permutation_map Lesson.id (order_by_created_at_desc_perm (rows t))).
Qed.

Lemma run_keeps_ids_ascending_witness :
  let calls := [InitDatabase; SaveLesson 5 (Some "A") None None None;
                SaveLesson 4 (Some "B") None None None] in
  ids_ascending_db empty_database /\
  ids_ascending_db (run calls empty_database) /\
  forall ls, fst (DatabaseManager.get_lessons (run calls empty_database)) = Ok ls ->
             NoDup (map DatabaseManager.id ls).
Proof.
  intros calls.
  assert (H : ids_ascending_db empty_database) by (repeat split; constructor).
  split; [exact H|].
  exact (run_keeps_ids_ascending calls empty_database H).
Defined.

(** X7. Saving a lesson adds exactly that lesson to the listing: the list
    [get_lessons] returns afterwards is the earlier list with the new lesson
    put somewhere in it; and when the clock at the save is later than the
    [created_at] of every stored lesson, the new lesson is the first and the
    others follow in their earlier order. *)
Theorem save_lesson_listing
    (now : Z) (title subject content outline : text) (f : database) :
  lessons f <> None ->
  title <> None ->
  exists (i : Z) (f' : database) (before after : list DatabaseManager.dict),
    DatabaseManager.get_lessons f = (Ok before, f) /\
    DatabaseManager.save_lesson now title subject content outline f = (Ok i, f') /\
    DatabaseManager.get_lessons f' = (Ok after, f') /\
    let new := {| DatabaseManager.id := i; DatabaseManager.title := title;
                  DatabaseManager.subject := subject;
                  DatabaseManager.content := content;
                  DatabaseManager.outline := outline;
                  DatabaseManager.created_at := now |} in
    Permutation after (new :: before) /\
    ((forall l, In l before -> DatabaseManager.created_at l < now) ->
     after = new :: before).
Proof.
  intros Hf Htitle.
  destruct (lessons f) as [t|] eqn:Ht; [clear Hf|congruence].
  destruct title as [title|]; [clear Htitle|congruence].
  rewrite save_lesson_eq, (insert_lesson_ok _ _ _ _ _ _ _ Ht).
  rewrite (get_lessons_present f t Ht).
  eexists _, _, _, _. split; [reflexivity|]. split; [reflexivity|].
  split; [apply get_lessons_present; reflexivity|].
  cbn [rows]. split.
  - change (?x :: map ?g ?l) with (map g ({| Lesson.id := next_rowid t;
        Lesson.title := Some title; Lesson.subject := subject;
        Lesson.content := content; Lesson.outline := outline;
        Lesson.created_at := now |} :: l)).
    apply Permutation_map.
    rewrite order_by_created_at_desc_perm.
    rewrite <- Permutation_cons_append. constructor.
    apply Permutation_sym, order_by_created_at_desc_perm.
  - intros Hnew. rewrite order_by_created_at_desc_newest; [reflexivity|].
    apply Forall_forall. intros r Hr. cbn.
    apply (Hnew (DatabaseManager.to_dict (Lesson.tuple r))).
    apply In_get_lessons. now exists r.
Qed.

Lemma save_lesson_listing_witness :
  let f := snd (DatabaseManager.save_lesson 10 (Some "A") None None None
                  (snd (DatabaseManager.init_database empty_database))) in
  lessons f <> None /\
  exists (i : Z) (f' : database) (before after : list DatabaseManager.dict),
    DatabaseManager.get_lessons f = (Ok before, f) /\
    DatabaseManager.save_lesson 20 (Some "B") None None None f = (Ok i, f') /\
    DatabaseManager.get_lessons f' = (Ok after, f') /\
    let new := {| DatabaseManager.id := i; DatabaseManager.title := Some "B";
                  DatabaseManager.subject := None;
                  DatabaseManager.content := None;
                  DatabaseManager.outline := None;
                  DatabaseManager.created_at := 20 |} in
    Permutation after (new :: before) /\
    ((forall l, In l before -> DatabaseManager.created_at l < 20) ->
     after = new :: before).
Proof.
  intros f.
  assert (Hf : lessons f <> None) by (cbn; discriminate).
  assert (Ht : Some "B" <> None) by discriminate.
  split; [exact Hf|].
  exact (save_lesson_listing 20 (Some "B") None None None f Hf Ht).
Defined.

(** Saved at 10 and then at 20, the second lesson is listed first. *)
Example save_lesson_listing_two :
  let f := snd (DatabaseManager.save_lesson 10 (Some "A") None None None
                  (snd (DatabaseManager.init_database empty_database))) in
  option_map (map DatabaseManager.title)
    (match fst (DatabaseManager.get_lessons
                  (snd (DatabaseManager.save_lesson 20 (Some "B") None None
                          None f))) with
     | Ok ls => Some ls
     | Raise _ => None
     end)
  = Some [Some "B"; Some "A"].
Proof. reflexivity. Qed.

(** ** More on accounts *)

Section AccountFacts.
Import LoginPage.

(** Only a registration touches the accounts table. *)
Lemma step_users_other (c : call) (f : database) :
  (forall u p, c <> Register u p) ->
  rows_of (users (step c f)) = rows_of (users f).
Proof.
  intros Hc.
  destruct c as [|now ttl sbj cnt otl|now name lid score status time|u p];
    cbn [step].
  - rewrite init_database_eq. reflexivity.
  - rewrite save_lesson_eq. unfold insert_lesson.
    destruct (lessons f); [destruct ttl|]; reflexivity.
  - rewrite save_progress_eq. unfold insert_progress.
    destruct (student_progress f); [destruct (negb _)|]; reflexivity.
  - now contradiction (Hc u p).
Qed.

(** What a registration does to the rows of the accounts table. *)
Lemma register_rows (u p : string) (f : database) :
  (registered u f /\
   rows_of (users (snd (register u p f))) = rows_of (users f)) \/
  (~ registered u f /\
   exists i,
     rows_of (users (snd (register u p f)))
     = (rows_of (users f) ++
        [{| User.id := i; User.username := Some u;
            User.password := Some p |}])%list).
Proof.
  destruct (registered_dec u f) as [Hreg|Hfresh].
  - left. split; [exact Hreg|]. now rewrite register_taken.
  - right. split; [exact Hfresh|].
    destruct (register_fresh u p f Hfresh) as (t & _ & Hrows & ->).
    exists (next_rowid t). cbn. now rewrite Hrows.
Qed.

Lemma filter_andb {A : Type} (g h : A -> bool) (l : list A) :
  filter (fun x => g x && h x) l = filter h (filter g l).
Proof.
  induction l as [|x l IH]; simpl; [reflexivity|].
  destruct (g x); simpl; [destruct (h x)|]; now rewrite IH.
Qed.

(** The login query, on the rows that hold the username. *)
Lemma authenticate_rows (u w : string) (f : database) :
  users f <> None ->
  authenticate u w f
  = (Ok (hd_error
           (filter (fun r => text_eq (User.password r) (Some w))
              (filter (fun r => text_eq (User.username r) (Some u))
                 (rows_of (users f))))), f).
Proof.
  intros Hf. rewrite authenticate_eq. unfold select_users.
  destruct (users f) as [t|]; [|congruence].
  now rewrite filter_andb.
Qed.

Lemma text_eq_Some (a b : string) : text_eq (Some a) (Some b) = String.eqb a b.
Proof. reflexivity. Qed.

(** The rows holding [u] are not changed by a call, once there is one. *)
Lemma step_account_rows (u : string) (c : call) (f : database) (user : User.row) :
  filter (fun r => text_eq (User.username r) (Some u)) (rows_of (users f))
  = [user] ->
  filter (fun r => text_eq (User.username r) (Some u))
         (rows_of (users (step c f))) = [user].
Proof.
  intros Hu.
  assert (Hreg : registered u f).
  { assert (Hin : In user (filter (fun r => text_eq (User.username r) (Some u))
                             (rows_of (users f))))
      by (rewrite Hu; now left).
    apply filter_In in Hin as [Hin Hname]. exists user.
    split; [exact Hin|]. now apply text_eq_true. }
  destruct c as [| | |u' p'];
    try (rewrite step_users_other; [exact Hu|discriminate]).
  cbn [step].
  destruct (register_rows u' p' f) as [[_ ->]|[Hfresh [i ->]]]; [exact Hu|].
  rewrite filter_app, Hu. cbn. rewrite ?text_eq_Some.
  destruct (String.eqb_spec u' u) as [->|_]; [contradiction|reflexivity].
Qed.

Lemma run_account_rows (u : string) (calls : list call) (f : database)
    (user : User.row) :
  filter (fun r => text_eq (User.username r) (Some u)) (rows_of (users f))
  = [user] ->
  filter (fun r => text_eq (User.username r) (Some u))
         (rows_of (users (run calls f))) = [user].
Proof.
  revert f. induction calls as [|c calls IH]; intros f Hu; cbn; [exact Hu|].
  apply IH, step_account_rows, Hu.
Qed.

Lemma In_usernames (u : string) (f : database) :
  In u (usernames f) <-> registered u f.
Proof.
  unfold usernames, registered. rewrite in_flat_map.
  split; intros (r & Hin & Hr); exists r; split; trivial.
  - destruct (User.username r) as [x|]; [|destruct Hr].
    destruct Hr as [->|[]]. reflexivity.
  - rewrite Hr. now left.
Qed.

Lemma step_usernames_unique (c : call) (f : database) :
  NoDup (usernames f) -> NoDup (usernames (step c f)).
Proof.
  intros Hf. unfold usernames in *.
  destruct c as [| | |u p];
    try (rewrite step_users_other; [exact Hf|discriminate]).
  cbn [step].
  destruct (register_rows u p f) as [[_ ->]|[Hfresh [i ->]]]; [exact Hf|].
  rewrite flat_map_app. cbn.
  eapply Permutation_NoDup; [apply Permutation_cons_append|].
  constructor; [|exact Hf].
  intros Hin. apply Hfresh. now apply In_usernames.
Qed.

End AccountFacts.

(** X8. Before anyone has registered there is no accounts table, and
    [init_database] does not make one: the login handler then raises
    [OperationalError] for every username and password, and so does its
    query. *)
Theorem login_without_accounts_table
    (username password : string) (st : LoginPage.session_state) (f : database) :
  users f = None ->
  let f1 := snd (DatabaseManager.init_database f) in
  LoginPage.authenticate username password f1 = (Raise OperationalError, f1) /\
  LoginPage.login username password st f1 = (Raise OperationalError, f1).
Proof.
  intros Hf f1.
  assert (Hq : LoginPage.authenticate username password f1
               = (Raise OperationalError, f1)).
  { rewrite authenticate_eq. unfold select_users. subst f1.
    rewrite init_database_eq. cbn. rewrite Hf. reflexivity. }
  split; [exact Hq|]. unfold LoginPage.login. now rewrite Hq.
Qed.

Lemma login_without_accounts_table_witness :
  let f1 := snd (DatabaseManager.init_database empty_database) in
  users empty_database = None /\
  LoginPage.authenticate "alice" "p1" f1 = (Raise OperationalError, f1) /\
  LoginPage.login "alice" "p1"
    {| LoginPage.logged_in := false; LoginPage.username := None |} f1
  = (Raise OperationalError, f1).
Proof.
  intros f1. split; [reflexivity|].
  exact (login_without_accounts_table "alice" "p1"
           {| LoginPage.logged_in := false; LoginPage.username := None |}
           empty_database eq_refl).
Defined.

(** X9. Credentials last: once [(username, password)] has been registered,
    then after any sequence of store operations (further registrations of the
    same name included) the login query with that password still returns the
    very account that was created, and with any other password it returns
    none. *)
Theorem credentials_persist (username password : string) (f f' : database) :
  LoginPage.register username password f = (Ok LoginPage.account_created, f') ->
  exists user : User.row,
    In user (rows_of (users f')) /\
    User.username user = Some username /\
    User.password user = Some password /\
    forall calls : list call,
      LoginPage.authenticate username password (run calls f')
      = (Ok (Some user), run calls f') /\
      forall w : string, w <> password ->
        LoginPage.authenticate username w (run calls f')
        = (Ok None, run calls f').
Proof.
  intros Hreg. apply register_created in Hreg as (t & Hnone & ->).
  set (user := {| User.id := next_rowid t; User.username := Some username;
                  User.password := Some password |}).
  exists user. split; [cbn; apply in_or_app; right; now left|].
  split; [reflexivity|]. split; [reflexivity|].
  intros calls.
  set (f' := set_users _ _).
  assert (Hrows : filter (fun r => text_eq (User.username r) (Some username))
                         (rows_of (users (run calls f'))) = [user]).
  { apply run_account_rows. subst f'. cbn. rewrite filter_app. cbn.
    rewrite ?text_eq_Some, String.eqb_refl.
    replace (filter _ (rows t)) with (@nil User.row); [reflexivity|].
    symmetry. clear -Hnone. induction (rows t) as [|r l IH]; [reflexivity|].
    cbn in Hnone |- *. apply orb_false_elim in Hnone as [Hr Hl].
    rewrite Hr. now apply IH. }
  assert (Hpresent : users (run calls f') <> None).
  { intros Hn. rewrite Hn in Hrows. discriminate Hrows. }
  split.
  - rewrite (authenticate_rows _ _ _ Hpresent), Hrows. cbn.
    now rewrite ?text_eq_Some, String.eqb_refl.
  - intros w Hw. rewrite (authenticate_rows _ _ _ Hpresent), Hrows. cbn.
    rewrite ?text_eq_Some.
    destruct (String.eqb_spec password w); [congruence|reflexivity].
Qed.

Lemma credentials_persist_witness :
  let f' := snd (LoginPage.register "alice" "p1" empty_database) in
  let calls := [Register "alice" "p2"; Register "bob" "p1"; InitDatabase] in
  LoginPage.register "alice" "p1" empty_database
  = (Ok LoginPage.account_created, f') /\
  exists user : User.row,
    LoginPage.authenticate "alice" "p1" (run calls f')
    = (Ok (Some user), run calls f') /\
    LoginPage.authenticate "alice" "p2" (run calls f')
    = (Ok None, run calls f').
Proof.
  intros f' calls.
  assert (Hreg : LoginPage.register "alice" "p1" empty_database
                 = (Ok LoginPage.account_created, f')) by reflexivity.
  split; [exact Hreg|].
  destruct (credentials_persist "alice" "p1" empty_database f' Hreg)
    as (user & _ & _ & _ & Hcalls).
  exists user. destruct (Hcalls calls) as [Hok Hbad].
  split; [exact Hok|]. apply Hbad. discriminate.
Defined.

(** X10. No two accounts share a username: if the usernames of the accounts
    are pairwise distinct, they still are after any sequence of store
    operations. *)
Theorem run_keeps_usernames_unique (calls : list call) (f : database) :
  NoDup (usernames f) -> NoDup (usernames (run calls f)).
Proof.
  revert f. induction calls as [|c calls IH]; intros f Hf; cbn; [exact Hf|].
  apply IH, step_usernames_unique, Hf.
Qed.

Lemma run_keeps_usernames_unique_witness :
  let calls := [Register "alice" "p1"; Register "bob" "p2";
                Register "alice" "p3"] in
  NoDup (usernames empty_database) /\
  NoDup (usernames (run calls empty_database)) /\
  usernames (run calls empty_database) = ["alice"; "bob"].
Proof.
  intros calls.
  assert (H : NoDup (usernames empty_database)) by constructor.
  split; [exact H|].
  split; [exact (run_keeps_usernames_unique calls empty_database H)|].
  reflexivity.
Defined.

(** ** Runs of main *)

Section MainFacts.
Import Main.

Variable json_dumps : list string -> string.

Lemma login_file (u p : string) (a : LoginPage.session_state) (f : database) :
  snd (LoginPage.login u p a f) = f.
Proof.
  unfold LoginPage.login. rewrite authenticate_eq.
  destruct (select_users (Some u) (Some p) f) as [[|r l]|e]; reflexivity.
Qed.

(** The login handler changes the session only by logging [u] in, which it
    does exactly when the query finds an account. *)
Lemma login_session (u p : string) (a : LoginPage.session_state) (f : database) :
  match LoginPage.login u p a f with
  | (Ok (a', _), _) =>
      a' = a \/
      (a' = {| LoginPage.logged_in := true; LoginPage.username := Some u |} /\
       exists user, fst (LoginPage.authenticate u p f) = Ok (Some user))
  | (Raise _, _) => True
  end.
Proof.
  unfold LoginPage.login.
  destruct (LoginPage.authenticate u p f) as [[[user|]|e] f']; cbn; eauto.
Qed.

Lemma register_other_tables (u p : string) (f : database) :
  lessons (snd (LoginPage.register u p f)) = lessons f /\
  student_progress (snd (LoginPage.register u p f)) = student_progress f /\
  generated_images (snd (LoginPage.register u p f)) = generated_images f.
Proof.
  rewrite register_eq. unfold insert_user.
  destruct (users (create_users f)) as [t|]; [|now cbn].
  destruct (existsb _ (rows t)); now cbn.
Qed.

Lemma save_lesson_other_tables now ttl sbj cnt otl (f : database) :
  student_progress (snd (DatabaseManager.save_lesson now ttl sbj cnt otl f))
  = student_progress f /\
  generated_images (snd (DatabaseManager.save_lesson now ttl sbj cnt otl f))
  = generated_images f /\
  users (snd (DatabaseManager.save_lesson now ttl sbj cnt otl f)) = users f.
Proof.
  rewrite save_lesson_eq. unfold insert_lesson.
  destruct (lessons f) as [t|]; [destruct ttl|]; now cbn.
Qed.

Lemma init_database_rows (f : database) :
  rows_of (lessons (snd (DatabaseManager.init_database f))) = rows_of (lessons f) /\
  rows_of (student_progress (snd (DatabaseManager.init_database f)))
  = rows_of (student_progress f) /\
  rows_of (generated_images (snd (DatabaseManager.init_database f)))
  = rows_of (generated_images f) /\
  users (snd (DatabaseManager.init_database f)) = users f.
Proof.
  rewrite init_database_eq. cbn. now rewrite !rows_of_create.
Qed.

(** The file a page leaves, given the file [init_database] left. *)
Lemma login_page_file (w : widgets) (st : session) (f : database) :
  snd (login_page w st f) = f \/
  snd (login_page w st f)
  = snd (LoginPage.register (username w) (password w) f).
Proof.
  unfold login_page.
  destruct (choice w =? _)%string.
  - destruct (create_account_clicked w); cbn; auto.
  - destruct (choice w =? _)%string; [|cbn; auto].
    destruct (login_clicked w); [|cbn; auto].
    pose proof (login_file (username w) (password w) (account st) f) as Hf.
    destruct (LoginPage.login _ _ _ f) as [[[a m]|e] f']; cbn in *; auto.
Qed.

Lemma lesson_page_file now frames cg ig (w : widgets) (st : session)
    (f : database) :
  snd (lesson_page json_dumps now frames cg ig w st f) = f \/
  exists ttl cnt otl,
    snd (lesson_page json_dumps now frames cg ig w st f)
    = snd (DatabaseManager.save_lesson now (Some ttl) (Some (subject w))
             (Some cnt) (Some otl) f).
Proof.
  unfold lesson_page.
  set (generated := if outline_clicked w then _ else _).
  destruct generated as [st1|e]; [|cbn; auto].
  destruct (current_lesson st1) as [lesson|]; [|cbn; auto].
  destruct (save_clicked w).
  - right.
    exists (ContentGenerator.title lesson), (ContentGenerator.content lesson),
      (json_dumps (ContentGenerator.outline lesson)).
    destruct (DatabaseManager.save_lesson _ _ _ _ _ f) as [[i|e] f'];
      [destruct (include_quiz w && quiz_clicked w)|]; reflexivity.
  - left. destruct (include_quiz w && quiz_clicked w); reflexivity.
Qed.

Lemma main_file now frames (w : widgets) (st : session) (f : database) :
  let f1 := snd (DatabaseManager.init_database f) in
  snd (main json_dumps now frames w st f) = f1 \/
  (LoginPage.logged_in (account st) = false /\
   snd (main json_dumps now frames w st f)
   = snd (LoginPage.register (username w) (password w) f1)) \/
  (LoginPage.logged_in (account st) = true /\
   exists ttl cnt otl,
     snd (main json_dumps now frames w st f)
     = snd (DatabaseManager.save_lesson now (Some ttl) (Some (subject w))
              (Some cnt) (Some otl) f1)).
Proof.
  intros f1. unfold main. fold f1. clearbody f1.
  destruct (LoginPage.logged_in (account st)); cbn [negb].
  - destruct (page w =? _)%string.
    { destruct (lesson_page_file now frames (ContentGenerator.init None)
                  ImageGenerator.init w st f1) as [->|(t & c & o & ->)]; eauto 8. }
    destruct (page w =? _)%string.
    { left. unfold manage_page. cbn [snd]. rewrite get_lessons_eq.
      destruct (select_lessons f1); reflexivity. }
    destruct (page w =? _)%string; [|now left].
    left. unfold quiz_page.
    destruct (generate_clicked w); [|reflexivity].
    destruct (truthy _); reflexivity.
  - destruct (login_page_file w st f1) as [->| ->]; auto.
Qed.

(** A run never touches the progress and image tables, and only a
    registration (not logged in) touches the accounts. *)
Lemma main_untouched now frames (w : widgets) (st : session) (f : database) :
  rows_of (student_progress (snd (main json_dumps now frames w st f)))
  = rows_of (student_progress f) /\
  rows_of (generated_images (snd (main json_dumps now frames w st f)))
  = rows_of (generated_images f) /\
  (LoginPage.logged_in (account st) = true ->
   users (snd (main json_dumps now frames w st f)) = users f) /\
  (LoginPage.logged_in (account st) = false ->
   rows_of (lessons (snd (main json_dumps now frames w st f)))
   = rows_of (lessons f)).
Proof.
  destruct (init_database_rows f) as (I1 & I2 & I3 & I4).
  destruct (main_file now frames w st f)
    as [->|[(Hout & ->)|(Hin & t & c & o & ->)]].
  - repeat split; auto.
  - destruct (register_other_tables (username w) (password w)
                (snd (DatabaseManager.init_database f))) as (R1 & R2 & R3).
    rewrite R1, R2, R3. repeat split; auto; congruence.
  - destruct (save_lesson_other_tables now (Some t) (Some (subject w)) (Some c)
                (Some o) (snd (DatabaseManager.init_database f)))
      as (S1 & S2 & S3).
    rewrite S1, S2, S3. repeat split; auto; congruence.
Qed.

(** The session keys a run can change, by login state. *)
Lemma main_session now frames (w : widgets) (st : session) (f : database) :
  (LoginPage.logged_in (account st) = true ->
   account (fst (main json_dumps now frames w st f)) = account st) /\
  (LoginPage.logged_in (account st) = false ->
   current_lesson (fst (main json_dumps now frames w st f)) = current_lesson st /\
   show_quiz (fst (main json_dumps now frames w st f)) = show_quiz st /\
   quiz_questions (fst (main json_dumps now frames w st f)) = quiz_questions st).
Proof.
  unfold main. generalize (snd (DatabaseManager.init_database f)) as f1.
  intros f1. split; intros Hlog; rewrite Hlog; cbn [negb].
  - destruct (page w =? _)%string.
    { unfold lesson_page.
      destruct (outline_clicked w); [destruct (truthy _)|];
        try destruct (ContentGenerator.generate_lesson_outline _ _ _ _ _);
        cbn; try reflexivity;
        match goal with
        | |- context [match current_lesson ?s with _ => _ end] =>
            destruct (current_lesson s)
        | _ => idtac
        end; cbn; try reflexivity;
        destruct (save_clicked w);
        try destruct (DatabaseManager.save_lesson _ _ _ _ _ f1) as [[i|e] f'];
        try destruct (include_quiz w && quiz_clicked w); reflexivity. }
    destruct (page w =? _)%string; [reflexivity|].
    destruct (page w =? _)%string; [|reflexivity].
    unfold quiz_page. destruct (generate_clicked w); [|reflexivity].
    destruct (truthy _); reflexivity.
  - unfold login_page.
    destruct (choice w =? _)%string.
    { destruct (create_account_clicked w); repeat split. }
    destruct (choice w =? _)%string; [|repeat split].
    destruct (login_clicked w); [|repeat split].
    destruct (LoginPage.login _ _ _ f1) as [[[a m]|e] f']; repeat split.
Qed.

End MainFacts.

Section MainSteps.
Import Main.

Variable json_dumps : list string -> string.

Lemma runs_cons frames (r : Z * widgets) (l : list (Z * widgets))
    (st : session) (f : database) :
  runs json_dumps frames (r :: l) st f
  = runs json_dumps frames l
      (fst (main json_dumps (fst r) frames (snd r) st f))
      (snd (main json_dumps (fst r) frames (snd r) st f)).
Proof.
  unfold runs. cbn [fold_left fst snd].
  now destruct (main json_dumps (fst r) frames (snd r) st f).
Qed.

Lemma init_database_lessons_present (f : database) :
  lessons (snd (DatabaseManager.init_database f)) <> None.
Proof. rewrite init_database_eq. cbn. apply create_if_not_exists_present. Qed.

Lemma truthy_topic (s : string) : truthy (Some s) = false <-> s = "".
Proof. destruct s; cbn; split; congruence. Qed.

(** The button "Tạo Dàn Ý" of a logged-in run on the lesson page. *)
Lemma lesson_page_outline now frames ig (w : widgets) (st : session)
    (f : database) :
  outline_clicked w = true ->
  current_lesson
    (fst (lesson_page json_dumps now (S frames) (ContentGenerator.init None) ig
            w st f))
  = if truthy (Some (topic w))
    then Some (ContentGenerator.template (topic w) (subject w))
    else current_lesson st.
Proof.
  intros Hclick. unfold lesson_page. rewrite Hclick.
  destruct (truthy (Some (topic w))).
  - rewrite generate_lesson_outline_fallback by reflexivity.
    cbn [current_lesson set_current_lesson].
    destruct (save_clicked w);
      [destruct (DatabaseManager.save_lesson _ _ _ _ _ f) as [[i|e] f']|];
      try destruct (include_quiz w && quiz_clicked w); reflexivity.
  - destruct (current_lesson st) as [lesson|] eqn:E; [|exact E].
    destruct (save_clicked w);
      [destruct (DatabaseManager.save_lesson _ _ _ _ _ f) as [[i|e] f']|];
      try destruct (include_quiz w && quiz_clicked w); exact E.
Qed.

(** The button "Lưu Bài Học" when a lesson is in the session. *)
Lemma lesson_page_save now frames cg ig (w : widgets) (st : session)
    (f : database) (lesson : ContentGenerator.LessonDocument) :
  outline_clicked w = false ->
  save_clicked w = true ->
  current_lesson st = Some lesson ->
  snd (lesson_page json_dumps now frames cg ig w st f)
  = snd (DatabaseManager.save_lesson now
           (Some (ContentGenerator.title lesson)) (Some (subject w))
           (Some (ContentGenerator.content lesson))
           (Some (json_dumps (ContentGenerator.outline lesson))) f).
Proof.
  intros Hout Hsave Hlesson. unfold lesson_page.
  rewrite Hout, Hlesson, Hsave.
  destruct (DatabaseManager.save_lesson _ _ _ _ _ f) as [[i|e] f'];
    [destruct (include_quiz w && quiz_clicked w)|]; reflexivity.
Qed.

Lemma filter_unregistered (u : string) (f : database) :
  ~ registered u f ->
  filter (fun r => text_eq (User.username r) (Some u)) (rows_of (users f)) = [].
Proof.
  intros Hfresh.
  assert (H : forall r, In r (rows_of (users f)) ->
                        text_eq (User.username r) (Some u) = false).
  { intros r Hin. destruct (text_eq _ _) eqn:E; [|reflexivity].
    exfalso. apply Hfresh. exists r. split; [exact Hin|].
    now apply text_eq_true. }
  induction (rows_of (users f)) as [|r l IH]; [reflexivity|].
  cbn. rewrite (H r) by now left. apply IH. intros r' Hr'. apply H. now right.
Qed.

(** The rows that hold a username just registered. *)
Lemma register_account_rows (u p : string) (f f' : database) :
  LoginPage.register u p f = (Ok LoginPage.account_created, f') ->
  exists i,
    filter (fun r => text_eq (User.username r) (Some u)) (rows_of (users f'))
    = [{| User.id := i; User.username := Some u; User.password := Some p |}].
Proof.
  intros Hreg.
  destruct (registered_dec u f) as [Htaken|Hfresh].
  - rewrite (register_taken u p f Htaken) in Hreg. discriminate Hreg.
  - destruct (register_rows u p f) as [[Htaken _]|[_ [i Hrows]]];
      [contradiction|].
    rewrite Hreg in Hrows. cbn [snd] in Hrows. exists i.
    rewrite Hrows, filter_app, (filter_unregistered u f Hfresh). cbn.
    now rewrite ?text_eq_Some, String.eqb_refl.
Qed.

End MainSteps.

(** X11. The app never records progress or images: after any succession of
    runs of [main], whatever the widgets return, the progress table and the
    images table hold exactly the rows they held before. *)
Theorem runs_never_write_progress
    (json_dumps : list string -> string) (frames : nat)
    (l : list (Z * Main.widgets)) (st : Main.session) (f : database) :
  rows_of (student_progress (snd (Main.runs json_dumps frames l st f)))
  = rows_of (student_progress f) /\
  rows_of (generated_images (snd (Main.runs json_dumps frames l st f)))
  = rows_of (generated_images f).
Proof.
  revert st f. induction l as [|r l IH]; intros st f; [now split|].
  rewrite runs_cons.
  destruct (IH (fst (Main.main json_dumps (fst r) frames (snd r) st f))
               (snd (Main.main json_dumps (fst r) frames (snd r) st f)))
    as [-> ->].
  destruct (main_untouched json_dumps (fst r) frames (snd r) st f)
    as (H1 & H2 & _). now split.
Qed.

(** X12. Nothing but the login page is reachable without logging in: a run
    of [main] in a session that is not logged in leaves the current lesson,
    the quiz keys and the rows of the lessons table as they were, whatever
    page and buttons the widgets report. *)
Theorem main_requires_login
    (json_dumps : list string -> string) (now : Z) (frames : nat)
    (w : Main.widgets) (st : Main.session) (f : database) :
  LoginPage.logged_in (Main.account st) = false ->
  let after := Main.main json_dumps now frames w st f in
  Main.current_lesson (fst after) = Main.current_lesson st /\
  Main.show_quiz (fst after) = Main.show_quiz st /\
  Main.quiz_questions (fst after) = Main.quiz_questions st /\
  rows_of (lessons (snd after)) = rows_of (lessons f).
Proof.
  intros Hout after. subst after.
  destruct (main_session json_dumps now frames w st f) as [_ Hs].
  destruct (Hs Hout) as (S1 & S2 & S3).
  destruct (main_untouched json_dumps now frames w st f) as (_ & _ & _ & Hl).
  repeat split; auto.
Qed.

Lemma main_requires_login_witness :
  let w := {| Main.choice := "Đăng nhập"; Main.username := "alice";
              Main.password := "p1"; Main.create_account_clicked := false;
              Main.login_clicked := true; Main.page := "Tạo bài giảng";
              Main.topic := "Pythagoras"; Main.subject := "Toán";
              Main.grade_level := "Tiểu học"; Main.outline_clicked := true;
              Main.include_images := true; Main.include_quiz := true;
              Main.save_clicked := true; Main.quiz_clicked := true;
              Main.topic_quiz := "Pythagoras"; Main.num_questions := 5;
              Main.generate_clicked := true |} in
  let after := Main.main (fun _ => "[]") 100 1000 w Main.new_session
                 empty_database in
  LoginPage.logged_in (Main.account Main.new_session) = false /\
  Main.current_lesson (fst after) = None /\
  Main.show_quiz (fst after) = None /\
  Main.quiz_questions (fst after) = None /\
  rows_of (lessons (snd after)) = [].
Proof.
  intros w after. split; [reflexivity|].
  exact (main_requires_login (fun _ => "[]") 100 1000 w Main.new_session
           empty_database eq_refl).
Defined.

(** X13. There is no way out of a logged-in session, and no registration from
    inside one: after any succession of runs of [main] that starts logged in,
    the login keys of the session and the accounts table are as they were. *)
Theorem runs_no_logout
    (json_dumps : list string -> string) (frames : nat)
    (l : list (Z * Main.widgets)) (st : Main.session) (f : database) :
  LoginPage.logged_in (Main.account st) = true ->
  Main.account (fst (Main.runs json_dumps frames l st f)) = Main.account st /\
  users (snd (Main.runs json_dumps frames l st f)) = users f.
Proof.
  revert st f. induction l as [|r l IH]; intros st f Hin; [now split|].
  rewrite runs_cons.
  destruct (main_session json_dumps (fst r) frames (snd r) st f) as [Ha _].
  destruct (main_untouched json_dumps (fst r) frames (snd r) st f)
    as (_ & _ & Hu & _).
  specialize (Ha Hin). specialize (Hu Hin).
  destruct (IH (fst (Main.main json_dumps (fst r) frames (snd r) st f))
               (snd (Main.main json_dumps (fst r) frames (snd r) st f)))
    as [-> ->]; [now rewrite Ha|].
  now split.
Qed.

Lemma runs_no_logout_witness :
  let w := {| Main.choice := "Đăng ký"; Main.username := "bob";
              Main.password := "p2"; Main.create_account_clicked := true;
              Main.login_clicked := true; Main.page := "Cài đặt";
              Main.topic := ""; Main.subject := "Toán";
              Main.grade_level := "Tiểu học"; Main.outline_clicked := false;
              Main.include_images := true; Main.include_quiz := true;
              Main.save_clicked := false; Main.quiz_clicked := false;
              Main.topic_quiz := ""; Main.num_questions := 5;
              Main.generate_clicked := false |} in
  let st := Main.set_account
              {| LoginPage.logged_in := true;
                 LoginPage.username := Some "alice" |} Main.new_session in
  LoginPage.logged_in (Main.account st) = true /\
  Main.account (fst (Main.runs (fun _ => "[]") 1000 [(1, w); (2, w)] st
                       empty_database))
  = Main.account st /\
  users (snd (Main.runs (fun _ => "[]") 1000 [(1, w); (2, w)] st
                empty_database))
  = users empty_database.
Proof.
  intros w st. split; [reflexivity|].
  exact (runs_no_logout (fun _ => "[]") 1000 [(1, w); (2, w)] st
           empty_database eq_refl).
Defined.

Section MainPages.
Import Main.

Variable json_dumps : list string -> string.

(** A logged-in run on the page "Tạo bài giảng" is [lesson_page] on the
    initialised file. *)
Lemma main_lesson_page now frames (w : widgets) (st : session) (f : database) :
  LoginPage.logged_in (account st) = true ->
  page w = "Tạo bài giảng" ->
  main json_dumps now frames w st f
  = lesson_page json_dumps now frames (ContentGenerator.init None)
      ImageGenerator.init w st (snd (DatabaseManager.init_database f)).
Proof.
  intros Hlog Hpage. unfold main. rewrite Hlog, Hpage. reflexivity.
Qed.

(** A run that is not logged in is [login_page] on the initialised file. *)
Lemma main_login_page now frames (w : widgets) (st : session) (f : database) :
  LoginPage.logged_in (account st) = false ->
  main json_dumps now frames w st f
  = login_page w st (snd (DatabaseManager.init_database f)).
Proof.
  intros Hlog. unfold main. rewrite Hlog. reflexivity.
Qed.

Lemma registered_init_database (u : string) (f : database) :
  registered u (snd (DatabaseManager.init_database f)) <-> registered u f.
Proof.
  unfold registered. destruct (init_database_rows f) as (_ & _ & _ & ->).
  reflexivity.
Qed.

End MainPages.

(** X14. The button "Tạo Dàn Ý" of the lesson page, in a logged-in run: with
    a topic that is not empty the session's current lesson becomes the
    template for the topic and the selected subject; with an empty topic the
    current lesson stays what it was. *)
Theorem main_outline_button
    (json_dumps : list string -> string) (now : Z) (frames : nat)
    (w : Main.widgets) (st : Main.session) (f : database) :
  LoginPage.logged_in (Main.account st) = true ->
  Main.page w = "Tạo bài giảng" ->
  Main.outline_clicked w = true ->
  Main.current_lesson (fst (Main.main json_dumps now (S frames) w st f))
  = match Main.topic w with
    | EmptyString => Main.current_lesson st
    | String _ _ =>
        Some (ContentGenerator.template (Main.topic w) (Main.subject w))
    end.
Proof.
  intros Hlog Hpage Hclick.
  rewrite (main_lesson_page json_dumps now (S frames) w st f Hlog Hpage).
  rewrite lesson_page_outline by exact Hclick.
  destruct (Main.topic w); reflexivity.
Qed.

Lemma main_outline_button_witness :
  let w := {| Main.choice := "Đăng nhập"; Main.username := "";
              Main.password := ""; Main.create_account_clicked := false;
              Main.login_clicked := false; Main.page := "Tạo bài giảng";
              Main.topic := ""; Main.subject := "Toán";
              Main.grade_level := "Tiểu học"; Main.outline_clicked := true;
              Main.include_images := true; Main.include_quiz := true;
              Main.save_clicked := false; Main.quiz_clicked := false;
              Main.topic_quiz := ""; Main.num_questions := 5;
              Main.generate_clicked := false |} in
  let st := Main.set_current_lesson (ContentGenerator.template "Thales" "Toán")
              (Main.set_account
                 {| LoginPage.logged_in := true;
                    LoginPage.username := Some "alice" |} Main.new_session) in
  LoginPage.logged_in (Main.account st) = true /\
  Main.current_lesson (fst (Main.main (fun _ => "[]") 100 (S 999) w st
                              empty_database))
  = Some (ContentGenerator.template "Thales" "Toán").
Proof.
  intros w st. split; [reflexivity|].
  exact (main_outline_button (fun _ => "[]") 100 999 w st empty_database
           eq_refl eq_refl eq_refl).
Defined.

(** X15. From the button "Tạo Dàn Ý" to the listing: in a logged-in session,
    a run that creates the outline for a topic and a later run that presses
    "Lưu Bài Học" leave a lesson in the store that [get_lessons] returns, with
    the title and the content of the template (built from the topic and the
    subject selected at creation), the encoded outline, the time of the save,
    and as subject the subject selected in the run that saves. *)
Theorem main_create_then_save
    (json_dumps : list string -> string) (now1 now2 : Z) (frames1 frames2 : nat)
    (w1 w2 : Main.widgets) (st : Main.session) (f : database) :
  LoginPage.logged_in (Main.account st) = true ->
  Main.page w1 = "Tạo bài giảng" ->
  Main.outline_clicked w1 = true ->
  Main.topic w1 <> "" ->
  Main.page w2 = "Tạo bài giảng" ->
  Main.outline_clicked w2 = false ->
  Main.save_clicked w2 = true ->
  let s1 := Main.main json_dumps now1 (S frames1) w1 st f in
  let s2 := Main.main json_dumps now2 frames2 w2 (fst s1) (snd s1) in
  exists (ls : list DatabaseManager.dict) (l : DatabaseManager.dict),
    DatabaseManager.get_lessons (snd s2) = (Ok ls, snd s2) /\
    In l ls /\
    DatabaseManager.title l = Some ("Bài học về " ++ Main.topic w1) /\
    DatabaseManager.subject l = Some (Main.subject w2) /\
    DatabaseManager.content l
    = Some ("Nội dung chi tiết về " ++ Main.topic w1 ++ " trong môn "
            ++ Main.subject w1 ++ "...") /\
    DatabaseManager.outline l
    = Some (json_dumps [ "1. Giới thiệu và mục tiêu học tập";
                         "2. Kiến thức cơ bản";
                         "3. Ví dụ minh họa";
                         "4. Bài tập thực hành";
                         "5. Tổng kết và đánh giá" ]) /\
    DatabaseManager.created_at l = now2.
Proof.
  intros Hlog Hp1 Hc1 Ht1 Hp2 Hc2 Hs2 s1 s2.
  assert (Hlesson : Main.current_lesson (fst s1)
                    = Some (ContentGenerator.template (Main.topic w1)
                              (Main.subject w1))).
  { subst s1.
    rewrite (main_lesson_page json_dumps now1 (S frames1) w1 st f Hlog Hp1).
    rewrite lesson_page_outline by exact Hc1.
    destruct (Main.topic w1); [congruence|reflexivity]. }
  assert (Hlog1 : LoginPage.logged_in (Main.account (fst s1)) = true).
  { subst s1.
    destruct (main_session json_dumps now1 (S frames1) w1 st f) as [Ha _].
    now rewrite (Ha Hlog). }
  subst s2.
  rewrite (main_lesson_page json_dumps now2 frames2 w2 (fst s1) (snd s1)
             Hlog1 Hp2).
  rewrite (lesson_page_save json_dumps now2 frames2 _ _ w2 (fst s1) _ _
             Hc2 Hs2 Hlesson).
  pose proof (init_database_lessons_present (snd s1)) as Hpresent.
  destruct (lessons (snd (DatabaseManager.init_database (snd s1))))
    as [t|] eqn:Ht; [clear Hpresent|congruence].
  rewrite save_lesson_eq, (insert_lesson_ok _ _ _ _ _ _ _ Ht). cbn [snd].
  eexists _, _. split; [apply get_lessons_present; reflexivity|].
  split.
  { apply In_get_lessons. eexists. split; [|reflexivity].
    cbn [rows]. apply in_or_app. right. left. reflexivity. }
  repeat split.
Qed.

Lemma main_create_then_save_witness :
  let w1 := {| Main.choice := "Đăng nhập"; Main.username := "";
               Main.password := ""; Main.create_account_clicked := false;
               Main.login_clicked := false; Main.page := "Tạo bài giảng";
               Main.topic := "Pythagoras"; Main.subject := "Toán";
               Main.grade_level := "Tiểu học"; Main.outline_clicked := true;
               Main.include_images := true; Main.include_quiz := true;
               Main.save_clicked := false; Main.quiz_clicked := false;
               Main.topic_quiz := ""; Main.num_questions := 5;
               Main.generate_clicked := false |} in
  let w2 := {| Main.choice := "Đăng nhập"; Main.username := "";
               Main.password := ""; Main.create_account_clicked := false;
               Main.login_clicked := false; Main.page := "Tạo bài giảng";
               Main.topic := "Pythagoras"; Main.subject := "Lý";
               Main.grade_level := "Tiểu học"; Main.outline_clicked := false;
               Main.include_images := true; Main.include_quiz := true;
               Main.save_clicked := true; Main.quiz_clicked := false;
               Main.topic_quiz := ""; Main.num_questions := 5;
               Main.generate_clicked := false |} in
  let st := Main.set_account
              {| LoginPage.logged_in := true;
                 LoginPage.username := Some "alice" |} Main.new_session in
  let s1 := Main.main (fun _ => "[]") 100 (S 999) w1 st empty_database in
  let s2 := Main.main (fun _ => "[]") 200 1000 w2 (fst s1) (snd s1) in
  Main.topic w1 <> "" /\
  exists (ls : list DatabaseManager.dict) (l : DatabaseManager.dict),
    DatabaseManager.get_lessons (snd s2) = (Ok ls, snd s2) /\
    In l ls /\
    DatabaseManager.title l = Some "Bài học về Pythagoras" /\
    DatabaseManager.subject l = Some "Lý" /\
    DatabaseManager.content l
    = Some "Nội dung chi tiết về Pythagoras trong môn Toán..." /\
    DatabaseManager.outline l = Some "[]" /\
    DatabaseManager.created_at l = 200.
Proof.
  intros w1 w2 st s1 s2.
  assert (Ht : Main.topic w1 <> "") by discriminate.
  split; [exact Ht|].
  exact (main_create_then_save (fun _ => "[]") 100 200 999 1000 w1 w2 st
           empty_database eq_refl eq_refl eq_refl Ht eq_refl eq_refl eq_refl).
Defined.

(** X16. Register, then log in: in a session that is not logged in, a run
    that creates an account for a username no account holds, followed by a
    run that logs in with the same username and password, ends logged in
    under that username. *)
Theorem main_register_then_login
    (json_dumps : list string -> string) (now1 now2 : Z) (frames1 frames2 : nat)
    (w1 w2 : Main.widgets) (st : Main.session) (f : database) :
  LoginPage.logged_in (Main.account st) = false ->
  ~ registered (Main.username w1) f ->
  Main.choice w1 = "Đăng ký" ->
  Main.create_account_clicked w1 = true ->
  Main.choice w2 = "Đăng nhập" ->
  Main.login_clicked w2 = true ->
  Main.username w2 = Main.username w1 ->
  Main.password w2 = Main.password w1 ->
  let s1 := Main.main json_dumps now1 frames1 w1 st f in
  let s2 := Main.main json_dumps now2 frames2 w2 (fst s1) (snd s1) in
  Main.account (fst s2)
  = {| LoginPage.logged_in := true;
       LoginPage.username := Some (Main.username w1) |}.
Proof.
  intros Hout Hfresh Hc1 Hb1 Hc2 Hb2 Hu Hp s1 s2.
  assert (Hs1 : s1 = (st, snd (LoginPage.register (Main.username w1)
                                 (Main.password w1)
                                 (snd (DatabaseManager.init_database f))))).
  { subst s1. rewrite (main_login_page json_dumps now1 frames1 w1 st f Hout).
    unfold Main.login_page. now rewrite Hc1, Hb1. }
  assert (Hfresh1 : ~ registered (Main.username w1)
                      (snd (DatabaseManager.init_database f)))
    by now rewrite registered_init_database.
  destruct (register_fresh (Main.username w1) (Main.password w1) _ Hfresh1)
    as (t & _ & _ & Hreg).
  destruct (register_account_rows _ _ _ _ Hreg) as (i & Hrows).
  rewrite Hreg in Hs1. cbn [snd] in Hs1.
  set (f' := set_users _ _) in *.
  subst s2. rewrite Hs1. cbn [fst snd].
  rewrite (main_login_page json_dumps now2 frames2 w2 st f' Hout).
  unfold Main.login_page. rewrite Hc2, Hb2, Hu, Hp.
  cbn [String.eqb Ascii.eqb Bool.eqb].
  unfold LoginPage.login.
  assert (Husers : users (snd (DatabaseManager.init_database f')) = users f')
    by apply (init_database_rows f').
  assert (Hpresent : users (snd (DatabaseManager.init_database f')) <> None).
  { rewrite Husers. intros Hn. rewrite Hn in Hrows. discriminate Hrows. }
  rewrite (authenticate_rows _ _ _ Hpresent), Husers, Hrows. cbn.
  now rewrite ?text_eq_Some, String.eqb_refl.
Qed.

Lemma main_register_then_login_witness :
  let w1 := {| Main.choice := "Đăng ký"; Main.username := "alice";
               Main.password := "p1"; Main.create_account_clicked := true;
               Main.login_clicked := false; Main.page := "Tạo bài giảng";
               Main.topic := ""; Main.subject := "Toán";
               Main.grade_level := "Tiểu học"; Main.outline_clicked := false;
               Main.include_images := true; Main.include_quiz := true;
               Main.save_clicked := false; Main.quiz_clicked := false;
               Main.topic_quiz := ""; Main.num_questions := 5;
               Main.generate_clicked := false |} in
  let w2 := {| Main.choice := "Đăng nhập"; Main.username := "alice";
               Main.password := "p1"; Main.create_account_clicked := false;
               Main.login_clicked := true; Main.page := "Tạo bài giảng";
               Main.topic := ""; Main.subject := "Toán";
               Main.grade_level := "Tiểu học"; Main.outline_clicked := false;
               Main.include_images := true; Main.include_quiz := true;
               Main.save_clicked := false; Main.quiz_clicked := false;
               Main.topic_quiz := ""; Main.num_questions := 5;
               Main.generate_clicked := false |} in
  let s1 := Main.main (fun _ => "[]") 100 1000 w1 Main.new_session
              empty_database in
  let s2 := Main.main (fun _ => "[]") 200 1000 w2 (fst s1) (snd s1) in
  ~ registered "alice" empty_database /\
  Main.account (fst s2)
  = {| LoginPage.logged_in := true; LoginPage.username := Some "alice" |}.
Proof.
  intros w1 w2 s1 s2.
  assert (Hfresh : ~ registered (Main.username w1) empty_database)
    by (intros (r & [] & _)).
  split; [exact Hfresh|].
  exact (main_register_then_login (fun _ => "[]") 100 200 1000 1000 w1 w2
           Main.new_session empty_database eq_refl Hfresh eq_refl eq_refl
           eq_refl eq_refl eq_refl eq_refl).
Defined.

(** X17. Nobody logs in without an account: a run of [main] in a session
    that is not logged in, with a username that no account of the store
    holds, leaves the login keys of the session as they were, whatever the
    password and the buttons. *)
Theorem main_login_requires_account
    (json_dumps : list string -> string) (now : Z) (frames : nat)
    (w : Main.widgets) (st : Main.session) (f : database) :
  LoginPage.logged_in (Main.account st) = false ->
  ~ registered (Main.username w) f ->
  Main.account (fst (Main.main json_dumps now frames w st f)) = Main.account st.
Proof.
  intros Hout Hfresh.
  rewrite (main_login_page json_dumps now frames w st f Hout).
  assert (Hfresh1 : ~ registered (Main.username w)
                      (snd (DatabaseManager.init_database f)))
    by now rewrite registered_init_database.
  clear Hfresh. rename Hfresh1 into Hfresh.
  set (f1 := snd (DatabaseManager.init_database f)) in *. clearbody f1.
  unfold Main.login_page.
  destruct (Main.choice w =? _)%string.
  { destruct (Main.create_account_clicked w); reflexivity. }
  destruct (Main.choice w =? _)%string; [|reflexivity].
  destruct (Main.login_clicked w); [|reflexivity].
  unfold LoginPage.login.
  destruct (users f1) as [t|] eqn:Ht.
  - assert (Hpresent : users f1 <> None) by congruence.
    rewrite (authenticate_rows _ _ _ Hpresent).
    rewrite (filter_unregistered _ _ Hfresh). reflexivity.
  - rewrite authenticate_eq. unfold select_users. rewrite Ht. reflexivity.
Qed.

Lemma main_login_requires_account_witness :
  let w := {| Main.choice := "Đăng nhập"; Main.username := "mallory";
              Main.password := "p1"; Main.create_account_clicked := false;
              Main.login_clicked := true; Main.page := "Tạo bài giảng";
              Main.topic := ""; Main.subject := "Toán";
              Main.grade_level := "Tiểu học"; Main.outline_clicked := false;
              Main.include_images := true; Main.include_quiz := true;
              Main.save_clicked := false; Main.quiz_clicked := false;
              Main.topic_quiz := ""; Main.num_questions := 5;
              Main.generate_clicked := false |} in
  let f := snd (LoginPage.register "alice" "p1" empty_database) in
  ~ registered "mallory" f /\
  Main.account (fst (Main.main (fun _ => "[]") 100 1000 w Main.new_session f))
  = Main.account Main.new_session.
Proof.
  intros w f.
  assert (Hfresh : ~ registered (Main.username w) f).
  { intros (r & [<-|[]] & Hr). discriminate Hr. }
  split; [exact Hfresh|].
  exact (main_login_requires_account (fun _ => "[]") 100 1000 w
           Main.new_session f eq_refl Hfresh).
Defined.

(** ** More on the quiz and on independent tables *)

Section QuizFacts.
Import ContentGenerator.

Lemma str_of_int_inj (a b : Z) : str_of_int a = str_of_int b -> a = b.
Proof.
  unfold str_of_int. intros H.
  assert (Hnonnil : forall z, Z.to_int z <> Decimal.Pos Decimal.Nil /\
                              Z.to_int z <> Decimal.Neg Decimal.Nil).
  { intros [|p|p]; cbn; split; try discriminate;
      intros [= Hp]; now apply DecimalPos.Unsigned.to_uint_nonnil in Hp. }
  apply (f_equal NilZero.int_of_string) in H.
  rewrite !NilZero.isi in H by apply Hnonnil.
  injection H as H. now apply DecimalZ.to_int_inj.
Qed.

Lemma question_inj (topic : string) (i j : Z) :
  question (quiz_question topic i) = question (quiz_question topic j) -> i = j.
Proof.
  cbn [question quiz_question]. intros H.
  apply append_inv_head in H.
  apply (append_inv_tail (" về " ++ topic ++ "?")) in H.
  apply str_of_int_inj in H. lia.
Qed.

Lemma range_NoDup (n : Z) : NoDup (range n).
Proof.
  unfold range. apply Finite.Injective_map_NoDup.
  - intros x y. apply Nat2Z.inj.
  - apply seq_NoDup.
Qed.

End QuizFacts.

(** X18. The questions of a quiz are pairwise distinct: no question text
    occurs twice in the list [generate_quiz_questions] returns. *)
Theorem generate_quiz_questions_distinct (topic : string) (n : Z) :
  NoDup (map ContentGenerator.question
             (ContentGenerator.generate_quiz_questions topic n)).
Proof.
  rewrite generate_quiz_questions_map, map_map.
  apply Finite.Injective_map_NoDup; [|apply range_NoDup].
  intros i j. apply question_inj.
Qed.

(** X19. The lessons table and the progress table are independent: on a
    shared file, a [save_lesson] whose title is not [None] and a
    [save_progress] give the same results and leave the same file in either
    order. *)
Theorem save_lesson_save_progress_commute
    (now1 : Z) (title subject content outline : text)
    (now2 : Z) (student_name : text) (lesson_id quiz_score : integer)
    (completion_status : text) (study_time : integer) (s : shared) :
  title <> None ->
  let a := SharedFile.save_lesson now1 title subject content outline s in
  let b := SharedFile.save_progress now2 student_name lesson_id quiz_score
             completion_status study_time (snd a) in
  let b' := SharedFile.save_progress now2 student_name lesson_id quiz_score
              completion_status study_time s in
  let a' := SharedFile.save_lesson now1 title subject content outline
              (snd b') in
  fst a = fst a' /\ fst b = fst b' /\ snd b = snd a'.
Proof.
  intros Htitle. cbv zeta.
  destruct title as [ttl|]; [clear Htitle|congruence].
  rewrite !shared_save_lesson_eq, !shared_save_progress_eq.
  unfold insert_lesson, insert_progress.
  destruct s as [f l]. cbn [contents leaked_lock].
  destruct (lessons f) as [tl|] eqn:Hl;
    destruct (student_progress f) as [tp|] eqn:Hp;
    destruct (negb (fits_int64 lesson_id && fits_int64 quiz_score
                    && fits_int64 study_time));
    destruct l; cbn; rewrite ?Hl, ?Hp; cbn; repeat split.
Qed.

Lemma save_lesson_save_progress_commute_witness :
  let s := {| contents := snd (DatabaseManager.init_database empty_database);
              leaked_lock := false |} in
  let a := SharedFile.save_lesson 10 (Some "A") None None None s in
  let b := SharedFile.save_progress 11 (Some "An") (Some 1) (Some 8)
             (Some "completed") (Some 30) (snd a) in
  let b' := SharedFile.save_progress 11 (Some "An") (Some 1) (Some 8)
              (Some "completed") (Some 30) s in
  let a' := SharedFile.save_lesson 10 (Some "A") None None None (snd b') in
  Some "A" <> None /\
  fst a = Ok 1 /\ fst b = Ok tt /\
  fst a = fst a' /\ fst b = fst b' /\ snd b = snd a'.
Proof.
  intros s a b b' a'.
  assert (Ht : Some "A" <> None) by discriminate.
  split; [exact Ht|]. split; [reflexivity|]. split; [reflexivity|].
  exact (save_lesson_save_progress_commute 10 (Some "A") None None None
           11 (Some "An") (Some 1) (Some 8) (Some "completed") (Some 30) s Ht).
Defined.

(** With a title that is [None] the order matters: after the refused save
    the progress is not recorded, before it it is. *)
Example refused_save_then_save_progress :
  let s := {| contents := snd (DatabaseManager.init_database empty_database);
              leaked_lock := false |} in
  let a := SharedFile.save_lesson 10 None None None None s in
  fst (SharedFile.save_progress 11 (Some "An") (Some 1) (Some 8)
         (Some "completed") (Some 30) (snd a)) = Raise OperationalError /\
  fst (SharedFile.save_progress 11 (Some "An") (Some 1) (Some 8)
         (Some "completed") (Some 30) s) = Ok tt.
Proof. split; reflexivity. Qed.

(** X20. The button "Tạo Câu Hỏi" of the quiz page, in a logged-in run with a
    topic that is not empty and a count within the slider's range 3..20: the
    session then holds a quiz of exactly that many questions, and nothing
    is written to the store beyond what [init_database] ensures. *)
Theorem main_quiz_button
    (json_dumps : list string -> string) (now : Z) (frames : nat)
    (w : Main.widgets) (st : Main.session) (f : database) :
  LoginPage.logged_in (Main.account st) = true ->
  Main.page w = "Tạo câu hỏi" ->
  Main.generate_clicked w = true ->
  Main.topic_quiz w <> "" ->
  3 <= Main.num_questions w <= 20 ->
  let after := Main.main json_dumps now frames w st f in
  exists qs,
    Main.quiz_questions (fst after) = Some qs /\
    qs = ContentGenerator.generate_quiz_questions (Main.topic_quiz w)
           (Main.num_questions w) /\
    Z.of_nat (length qs) = Main.num_questions w /\
    snd after = snd (DatabaseManager.init_database f).
Proof.
  intros Hlog Hpage Hclick Htopic Hn after. subst after.
  unfold Main.main. rewrite Hlog, Hpage. cbn [negb].
  change ("Tạo câu hỏi" =? "Tạo bài giảng")%string with false.
  change ("Tạo câu hỏi" =? "Quản lý bài học")%string with false.
  rewrite String.eqb_refl. cbv iota.
  unfold Main.quiz_page. rewrite Hclick.
  destruct (Main.topic_quiz w) as [|c s] eqn:E; [congruence|].
  cbn [truthy]. eexists. split; [reflexivity|]. split; [reflexivity|].
  split; [|reflexivity].
  rewrite generate_quiz_questions_map, length_map, range_length. lia.
Qed.

Lemma main_quiz_button_witness :
  let w := {| Main.choice := "Đăng nhập"; Main.username := "";
              Main.password := ""; Main.create_account_clicked := false;
              Main.login_clicked := false; Main.page := "Tạo câu hỏi";
              Main.topic := ""; Main.subject := "Toán";
              Main.grade_level := "Tiểu học"; Main.outline_clicked := false;
              Main.include_images := true; Main.include_quiz := true;
              Main.save_clicked := false; Main.quiz_clicked := false;
              Main.topic_quiz := "Pythagoras"; Main.num_questions := 5;
              Main.generate_clicked := true |} in
  let st := Main.set_account
              {| LoginPage.logged_in := true;
                 LoginPage.username := Some "alice" |} Main.new_session in
  let after := Main.main (fun _ => "[]") 100 1000 w st empty_database in
  Main.topic_quiz w <> "" /\ 3 <= Main.num_questions w <= 20 /\
  exists qs,
    Main.quiz_questions (fst after) = Some qs /\
    qs = ContentGenerator.generate_quiz_questions "Pythagoras" 5 /\
    Z.of_nat (length qs) = 5 /\
    snd after = snd (DatabaseManager.init_database empty_database).
Proof.
  intros w st after.
  assert (Ht : Main.topic_quiz w <> "") by discriminate.
  assert (Hn : 3 <= Main.num_questions w <= 20) by (cbn; lia).
  split; [exact Ht|]. split; [exact Hn|].
  exact (main_quiz_button (fun _ => "[]") 100 1000 w st empty_database
           eq_refl eq_refl eq_refl Ht Hn).
Defined.
